(** * Primary selection after a view change (plenum/server/primary_selector.py)

    A shallow embedding of [PrimarySelector]: the per-instance record of
    ViewChangeDone votes, the round-robin choice of the expected primary, the
    quorum checks of [_processViewChangeDoneMessage], the self-votes of
    [_startSelection] and the replay list of [get_msgs_for_lagged_nodes].

    Python objects are mutated in place; here every method is a computation
    that takes the selector and gives back the selector it leaves behind
    together with what the call returned or raised. *)

From Stdlib Require Import ZArith List String Ascii Bool Lia DecimalString.
Import ListNotations.

Local Open Scope Z_scope.

(** ** Python dictionaries

    A [dict] keeps its keys in insertion order, and the order is observable
    here: [values()] feeds [mostCommonElement] and [items()] fixes the order
    of the replayed messages.  So a dictionary is an association list, new
    keys go to the end and an assignment to a present key keeps its place. *)

Section PyDict.
Context {K V : Type}.
Variable eqb : K -> K -> bool.

Definition dict : Type := list (K * V).

(* d.get(k) *)
Fixpoint dict_get (k : K) (d : dict) : option V :=
  match d with
  | [] => None
  | (k', v) :: d' => if eqb k k' then Some v else dict_get k d'
  end.

(* k in d *)
Definition dict_mem (k : K) (d : dict) : bool :=
  match dict_get k d with Some _ => true | None => false end.

(* d[k] = v *)
Fixpoint dict_set (k : K) (v : V) (d : dict) : dict :=
  match d with
  | [] => [(k, v)]
  | (k', v') :: d' =>
      if eqb k k' then (k', v) :: d' else (k', v') :: dict_set k v d'
  end.

Definition dict_keys (d : dict) : list K := map fst d.
Definition dict_values (d : dict) : list V := map snd d.
Definition dict_len (d : dict) : Z := Z.of_nat (List.length d).

End PyDict.

Arguments dict : clear implicits.

(** ** Python lists *)

(* l[i]: a negative index counts from the end, anything else out of range
   raises IndexError (None here) *)
Definition list_getitem {A : Type} (l : list A) (i : Z) : option A :=
  let n := Z.of_nat (List.length l) in
  if (0 <=? i) && (i <? n) then nth_error l (Z.to_nat i)
  else if (- n <=? i) && (i <? 0) then nth_error l (Z.to_nat (n + i))
  else None.

(* the object at position n is replaced (it was mutated in place) *)
Fixpoint list_update {A : Type} (n : nat) (x : A) (l : list A) : list A :=
  match l, n with
  | [], _ => []
  | _ :: l', O => x :: l'
  | y :: l', S n' => y :: list_update n' x l'
  end.

(* enumerate(l) *)
Definition enumerate {A : Type} (l : list A) : list (Z * A) :=
  combine (map Z.of_nat (seq 0 (List.length l))) l.

(** ** Names, ledger summaries and messages *)

Definition NodeName : Type := string.
Definition ReplicaName : Type := string.

(** Modelled from the spec: [Replica.generateName] and [Replica.getNodeName]
    (plenum/server/replica.py) are not in src.  A ReplicaName is the composite
    of a node name and an instance id (spec, data model), written here as the
    node name, a colon and the instance id in decimal; the node name of a
    replica name is what stands before its first colon. *)
Definition generateName (nodeName : NodeName) (instId : Z) : ReplicaName :=
  (nodeName ++ ":" ++ NilZero.string_of_int (Z.to_int instId))%string.

Fixpoint getNodeName (replicaName : ReplicaName) : NodeName :=
  match replicaName with
  | EmptyString => EmptyString
  | String c rest =>
      if Ascii.eqb c ":"%char then EmptyString else String c (getNodeName rest)
  end.

(* one field of a ledger summary: a number (ledger id, size) or a string
   (root hash) *)
Inductive Atom : Type :=
| AInt (z : Z)
| AStr (s : string).

Definition LedgerSummary : Type := list Atom.
Definition LedgerInfo : Type := list LedgerSummary.

(* the data kept for a voter: (new_primary_replica_name, ledger_info) *)
Definition VoteData : Type := (ReplicaName * LedgerInfo)%type.

Definition Atom_eq_dec (a b : Atom) : {a = b} + {a <> b}.
Proof. decide equality; [apply Z.eq_dec | apply string_dec]. Defined.

Definition VoteData_eq_dec (a b : VoteData) : {a = b} + {a <> b}.
Proof.
  decide equality;
    [apply (list_eq_dec (list_eq_dec Atom_eq_dec)) | apply string_dec].
Defined.

Module ViewChangeDone.
Record t : Type := make {
  name : ReplicaName;
  instId : Z;
  viewNo : Z;
  ledgerInfo : LedgerInfo
}.
End ViewChangeDone.

(** Modelled from the spec: [get_strong_quorum] (plenum.common.util) is not in
    src; [strong_quorum(f)] returns [2f + 1]. *)
Definition get_strong_quorum (f : Z) : Z := 2 * f + 1.

(* votes.count(x) *)
Definition count (votes : list VoteData) (x : VoteData) : Z :=
  Z.of_nat (count_occ VoteData_eq_dec votes x).

Fixpoint most_common_from (all : list VoteData) (best : VoteData)
    (rest : list VoteData) : VoteData :=
  match rest with
  | [] => best
  | x :: rest' =>
      if count all best <? count all x
      then most_common_from all x rest'
      else most_common_from all best rest'
  end.

(** Modelled from the spec: [mostCommonElement] (plenum.common.util) is not in
    src; it finds the most frequent element.  The spec leaves the choice among
    equally frequent elements open; here the one met first wins.  Of an empty
    collection there is none (None). *)
Definition mostCommonElement (elements : list VoteData) : option VoteData :=
  match elements with
  | [] => None
  | x :: rest => Some (most_common_from elements x rest)
  end.

(** ** The selector and its collaborators *)

(** Modelled from the spec: the [Replica] class is not in src.  A replica
    knows its primary's name or has none; [primaryChanged] adopts a primary
    and [hasPrimary] tells whether one is known. *)
Record Replica : Type := mkReplica {
  primaryName : option ReplicaName
}.

Definition hasPrimary (r : Replica) : bool :=
  match primaryName r with Some _ => true | None => false end.

(* what the selector reads from and tells its node; [primary_found_calls]
   counts the calls of node.primary_found() *)
Record Node : Type := mkNode {
  totalNodes : Z;
  get_name_by_rank : Z -> NodeName;
  primary_found_calls : nat
}.

Inductive DiscardReason : Type :=
| OtherViewNo              (* got Primary ... whereas current view no is ... *)
| PrimaryOfPreviousView    (* ... who was primary of master in previous view too *)
| AlreadyMarkedDone        (* already marked ... as done view change *)
| AlreadyDecidedPrimary.   (* it already decided primary which is ... *)

(* self.discard(msg, reason, ...) and the logger.error of
   _verify_primary_selection; the other log lines are left out *)
Inductive LogEntry : Type :=
| Discarded (msg : ViewChangeDone.t) (reason : DiscardReason)
| UnexpectedPrimary (expected_primary new_primary : ReplicaName) (viewNo : Z).

(* instance id -> replica name -> data *)
Definition VoteLedger : Type := dict Z (dict ReplicaName VoteData).

Record PrimarySelector : Type := mkPrimarySelector {
  name : NodeName;
  viewNo : Z;
  f : Z;
  node : Node;
  replicas : list Replica;
  ledger_info : LedgerInfo;
  previous_master_primary : option NodeName;
  _view_change_done : VoteLedger;
  sent : list ViewChangeDone.t;
  log : list LogEntry
}.

Definition with_view_change_done (d : VoteLedger) (self : PrimarySelector) :=
  mkPrimarySelector (name self) (viewNo self) (f self) (node self)
    (replicas self) (ledger_info self) (previous_master_primary self)
    d (sent self) (log self).

Definition with_previous_master_primary (p : option NodeName)
    (self : PrimarySelector) :=
  mkPrimarySelector (name self) (viewNo self) (f self) (node self)
    (replicas self) (ledger_info self) p
    (_view_change_done self) (sent self) (log self).

Definition with_replicas (rs : list Replica) (self : PrimarySelector) :=
  mkPrimarySelector (name self) (viewNo self) (f self) (node self)
    rs (ledger_info self) (previous_master_primary self)
    (_view_change_done self) (sent self) (log self).

Definition with_node (n : Node) (self : PrimarySelector) :=
  mkPrimarySelector (name self) (viewNo self) (f self) n
    (replicas self) (ledger_info self) (previous_master_primary self)
    (_view_change_done self) (sent self) (log self).

Definition with_sent (ms : list ViewChangeDone.t) (self : PrimarySelector) :=
  mkPrimarySelector (name self) (viewNo self) (f self) (node self)
    (replicas self) (ledger_info self) (previous_master_primary self)
    (_view_change_done self) ms (log self).

Definition with_log (l : list LogEntry) (self : PrimarySelector) :=
  mkPrimarySelector (name self) (viewNo self) (f self) (node self)
    (replicas self) (ledger_info self) (previous_master_primary self)
    (_view_change_done self) (sent self) l.

(** ** Methods as computations

    A call runs on a selector and ends in a selector and an outcome: a
    returned value or a raised exception.  What was mutated before an
    exception stays mutated. *)

Inductive exn : Type := IndexError | KeyError | ZeroDivisionError.

Inductive outcome (A : Type) : Type :=
| Returned (a : A)
| Raised (e : exn).

Arguments Returned {A} a.
Arguments Raised {A} e.

Definition M (A : Type) : Type := PrimarySelector -> PrimarySelector * outcome A.

Definition ret {A : Type} (a : A) : M A := fun self => (self, Returned a).

Definition raise {A : Type} (e : exn) : M A := fun self => (self, Raised e).

Definition bind {A B : Type} (c : M A) (k : A -> M B) : M B :=
  fun self =>
    match c self with
    | (self', Returned a) => k a self'
    | (self', Raised e) => (self', Raised e)
    end.

Definition get : M PrimarySelector := fun self => (self, Returned self).

Definition modify (g : PrimarySelector -> PrimarySelector) : M unit :=
  fun self => (g self, Returned tt).

Definition or_raise {A : Type} (e : exn) (o : option A) : M A :=
  match o with Some a => ret a | None => raise e end.

Declare Scope py_scope.
Delimit Scope py_scope with py.
Notation "x <- c ;; k" := (bind c (fun x => k))
  (at level 61, c at next level, right associativity) : py_scope.
Notation "c ;; k" := (bind c (fun _ => k))
  (at level 61, right associativity) : py_scope.
Local Open Scope py_scope.

Definition discard (msg : ViewChangeDone.t) (reason : DiscardReason) : M unit :=
  modify (fun self => with_log (log self ++ [Discarded msg reason]) self).

Definition send (message : ViewChangeDone.t) : M unit :=
  modify (fun self => with_sent (sent self ++ [message]) self).

(* self.node.primary_found() *)
Definition primary_found : M unit :=
  modify (fun self =>
    with_node (mkNode (totalNodes (node self)) (get_name_by_rank (node self))
                      (S (primary_found_calls (node self)))) self).

(* replica.primaryChanged(new_primary_name), replica being self.replicas[i] *)
Definition primaryChanged (i : nat) (new_primary_name : ReplicaName) : M unit :=
  modify (fun self =>
    with_replicas (list_update i (mkReplica (Some new_primary_name))
                               (replicas self)) self).

(** ** PrimarySelector *)

Definition get_msgs_for_lagged_nodes (self : PrimarySelector)
    : list ViewChangeDone.t :=
  flat_map
    (fun '(instance_id, replica_messages) =>
       let self_name := generateName (name self) instance_id in
       match dict_get String.eqb self_name replica_messages with
       | Some (new_primary_replica_name, ledger_info) =>
           [ViewChangeDone.make new_primary_replica_name instance_id
                                (viewNo self) ledger_info]
       | None => []
       end)
    (_view_change_done self).

Definition _is_master_instance (instance_id : Z) : bool := instance_id =? 0.

Definition _who_is_the_next_primary (instance_id : Z) : M ReplicaName :=
  self <- get ;;
  if totalNodes (node self) =? 0 then raise ZeroDivisionError else
  let new_primary_id := (viewNo self + instance_id) mod totalNodes (node self) in
  let new_primary_name :=
    generateName (get_name_by_rank (node self) new_primary_id) instance_id in
  ret new_primary_name.

Definition _track_view_change_done (instance_id : Z)
    (sender_replica_name new_primary_replica_name : ReplicaName)
    (ledger_info : LedgerInfo) : M bool :=
  self <- get ;;
  let data := (new_primary_replica_name, ledger_info) in
  match dict_get Z.eqb instance_id (_view_change_done self) with
  | None =>
      modify (with_view_change_done
                (dict_set Z.eqb instance_id
                   (dict_set String.eqb sender_replica_name data [])
                   (dict_set Z.eqb instance_id [] (_view_change_done self)))) ;;
      ret true
  | Some declarations =>
      if dict_mem String.eqb sender_replica_name declarations then ret false
      else
        modify (with_view_change_done
                  (dict_set Z.eqb instance_id
                     (dict_set String.eqb sender_replica_name data declarations)
                     (_view_change_done self))) ;;
        ret true
  end.

(* self._view_change_done.get(instance_id, {}) *)
Definition declarations_of (instance_id : Z) (self : PrimarySelector)
    : dict ReplicaName VoteData :=
  match dict_get Z.eqb instance_id (_view_change_done self) with
  | Some declarations => declarations
  | None => []
  end.

Definition _hasViewChangeQuorum (instance_id : Z) : M bool :=
  self <- get ;;
  let declarations := declarations_of instance_id self in
  let num_of_ready_nodes := dict_len declarations in
  let quorum := get_strong_quorum (f self) in
  let diff := quorum - num_of_ready_nodes in
  if diff >? 0 then ret false else ret true.

Definition has_view_change_from_primary (instance_id : Z) : M bool :=
  self <- get ;;
  let declarations := declarations_of instance_id self in
  next_primary_name <- _who_is_the_next_primary instance_id ;;
  if negb (dict_mem String.eqb next_primary_name declarations) then ret false
  else ret true.

(* (nm, tuple(tuple(i) for i in info)): lists and tuples of the same
   elements are the same value here *)
Definition as_tuples (vote : VoteData) : VoteData :=
  let '(nm, info) := vote in (nm, map (fun i => i) info).

Definition has_sufficient_same_view_change_done_messages (instance_id : Z)
    : M (option VoteData) :=
  self <- get ;;
  declarations <-
    or_raise KeyError (dict_get Z.eqb instance_id (_view_change_done self)) ;;
  let votes := dict_values declarations in
  let votes := map as_tuples votes in
  most_common <- or_raise IndexError (mostCommonElement votes) ;;
  let '(new_primary, ledger_info) := most_common in
  if count votes (new_primary, ledger_info) >=? get_strong_quorum (f self)
  then ret (Some (new_primary, ledger_info))
  else ret None.

Definition _verify_primary_selection (instance_id : Z)
    (new_primary : ReplicaName) (ledger_info : LedgerInfo) : M bool :=
  expected_primary <- _who_is_the_next_primary instance_id ;;
  if negb (String.eqb new_primary expected_primary) then
    modify (fun self =>
      with_log (log self ++
                [UnexpectedPrimary expected_primary new_primary (viewNo self)])
               self) ;;
    ret false
  else ret true.

Definition _processViewChangeDoneMessage (msg : ViewChangeDone.t)
    (sender : NodeName) : M bool :=
  self <- get ;;
  let view_no := ViewChangeDone.viewNo msg in
  if negb (viewNo self =? view_no) then
    discard msg OtherViewNo ;;
    ret false
  else
  let new_primary_replica_name := ViewChangeDone.name msg in
  let instance_id := ViewChangeDone.instId msg in
  let ledger_info := ViewChangeDone.ledgerInfo msg in
  let sender_replica_name := generateName sender instance_id in
  let new_primary_node_name := getNodeName new_primary_replica_name in
  if _is_master_instance instance_id &&
     match previous_master_primary self with
     | Some p => String.eqb new_primary_node_name p
     | None => false
     end
  then
    discard msg PrimaryOfPreviousView ;;
    ret false
  else
  tracked <- _track_view_change_done instance_id sender_replica_name
                                     new_primary_replica_name ledger_info ;;
  if negb tracked then
    discard msg AlreadyMarkedDone ;;
    ret false
  else
  self <- get ;;
  replica <- or_raise IndexError (list_getitem (replicas self) instance_id) ;;
  if hasPrimary replica then
    discard msg AlreadyDecidedPrimary ;;
    ret false
  else
  ready <- (quorum <- _hasViewChangeQuorum instance_id ;;
            if quorum then has_view_change_from_primary instance_id
            else ret false) ;;
  if negb ready then ret false else
  rv <- has_sufficient_same_view_change_done_messages instance_id ;;
  match rv with
  | None => ret false
  | Some (new_primary, ledger_info) =>
      _verify_primary_selection instance_id new_primary ledger_info
  end.

Definition _send_view_change_done_message (instance_id : Z)
    (new_primary_name : ReplicaName) (view_no : Z) : M unit :=
  self <- get ;;
  let ledger_info := ledger_info self in
  let message :=
    ViewChangeDone.make new_primary_name instance_id view_no ledger_info in
  send message ;;
  let replica_name := generateName (name self) instance_id in
  _track_view_change_done instance_id replica_name new_primary_name
                          ledger_info ;;
  ret tt.

(* one turn of the loop of _startSelection; every turn is the first to touch
   its replica, so [replica] is the list's entry as the loop found it *)
Definition select_primary_of (instance_id : Z) (replica : Replica) : M unit :=
  match primaryName replica with
  | Some _ => ret tt
  | None =>
      self <- get ;;
      new_primary_name <- _who_is_the_next_primary instance_id ;;
      _send_view_change_done_message instance_id new_primary_name
                                     (viewNo self) ;;
      primaryChanged (Z.to_nat instance_id) new_primary_name ;;
      primary_found ;;
      if instance_id =? 0 then modify (with_previous_master_primary None)
      else ret tt
  end.

Fixpoint for_each {A : Type} (body : A -> M unit) (l : list A) : M unit :=
  match l with
  | [] => ret tt
  | x :: l' => body x ;; for_each body l'
  end.

Definition _startSelection : M unit :=
  self <- get ;;
  for_each (fun '(instance_id, replica) => select_primary_of instance_id replica)
           (enumerate (replicas self)).

Definition decidePrimaries : M unit := _startSelection.

Section ViewChange.
(* super().view_change_started(viewNo): PrimaryDecider is not in src, so the
   base class's method is whatever the selector is built on *)
Variable PrimaryDecider_view_change_started : Z -> M bool.

Definition view_change_started (viewNo : Z) : M unit :=
  started <- PrimaryDecider_view_change_started viewNo ;;
  if started then
    modify (fun self =>
      with_view_change_done
        (map (fun '(i, _) => (i, [])) (_view_change_done self)) self)
  else ret tt.
End ViewChange.

(** Modelled from the spec: [PrimaryDecider.view_change_started] is not in
    src.  The view number never goes back, so a number that is not greater
    than the current one starts no view; a fresh view resets every instance
    to NoPrimary. *)
Definition decider_view_change_started (new_view_no : Z) : M bool :=
  self <- get ;;
  if new_view_no <=? viewNo self then ret false else
  modify (fun self =>
    mkPrimarySelector (name self) new_view_no (f self) (node self)
      (map (fun _ => mkReplica None) (replicas self)) (ledger_info self)
      (previous_master_primary self) (_view_change_done self) (sent self)
      (log self)) ;;
  ret true.

(** ** Vocabulary of the specification *)

(* the vote kept for a voter of an instance, if any *)
Definition recorded_vote (instance_id : Z) (voter : ReplicaName)
    (ledger : VoteLedger) : option VoteData :=
  match dict_get Z.eqb instance_id ledger with
  | Some declarations => dict_get String.eqb voter declarations
  | None => None
  end.

(* the ledger once a vote of a new voter is written into it *)
Definition record_vote (instance_id : Z) (voter : ReplicaName)
    (data : VoteData) (ledger : VoteLedger) : VoteLedger :=
  dict_set Z.eqb instance_id
    (dict_set String.eqb voter data
       (match dict_get Z.eqb instance_id ledger with
        | Some declarations => declarations
        | None => []
        end))
    ledger.

Definition voters (instance_id : Z) (self : PrimarySelector)
    : list ReplicaName :=
  dict_keys (declarations_of instance_id self).

Definition recorded_votes (instance_id : Z) (self : PrimarySelector)
    : list VoteData :=
  map as_tuples (dict_values (declarations_of instance_id self)).

Definition most_frequent (x : VoteData) (votes : list VoteData) : Prop :=
  In x votes /\ forall y, count votes y <= count votes x.

(* the spec's round-robin schedule, in its own words *)
Definition expected_primary (view_no instance_id total_nodes : Z)
    (rank_to_name : Z -> NodeName) : ReplicaName :=
  let rank := (view_no + instance_id) mod total_nodes in
  generateName (rank_to_name rank) instance_id.

Definition expected_primary_of (instance_id : Z) (self : PrimarySelector)
    : ReplicaName :=
  expected_primary (viewNo self) instance_id (totalNodes (node self))
                   (get_name_by_rank (node self)).

(* what a decision for an instance rests on *)
Definition decision_conditions (instance_id : Z) (self : PrimarySelector)
    : Prop :=
  let quorum := get_strong_quorum (f self) in
  let votes := recorded_votes instance_id self in
  quorum <= Z.of_nat (List.length (voters instance_id self)) /\
  In (expected_primary_of instance_id self) (voters instance_id self) /\
  exists new_primary ledger_info,
    mostCommonElement votes = Some (new_primary, ledger_info) /\
    most_frequent (new_primary, ledger_info) votes /\
    quorum <= count votes (new_primary, ledger_info) /\
    new_primary = expected_primary_of instance_id self.

(* the anti-flap test of _processViewChangeDoneMessage *)
Definition proposes_previous_master_primary (msg : ViewChangeDone.t)
    (self : PrimarySelector) : Prop :=
  ViewChangeDone.instId msg = 0 /\
  previous_master_primary self
  = Some (getNodeName (ViewChangeDone.name msg)).

(* instance ids the node has a replica for *)
Definition is_instance (instance_id : Z) (self : PrimarySelector) : Prop :=
  0 <= instance_id < Z.of_nat (List.length (replicas self)).

(* every instance once, every voter of an instance once: what a dict of
   dicts cannot fail to be *)
Definition ledger_wf (ledger : VoteLedger) : Prop :=
  NoDup (dict_keys ledger) /\
  forall instance_id declarations,
    In (instance_id, declarations) ledger -> NoDup (dict_keys declarations).

(* the part of _processViewChangeDoneMessage that follows the recording of
   the vote (lines 108-126) *)
Definition decide_once_tracked (msg : ViewChangeDone.t) : M bool :=
  let instance_id := ViewChangeDone.instId msg in
  self <- get ;;
  replica <- or_raise IndexError (list_getitem (replicas self) instance_id) ;;
  if hasPrimary replica then
    discard msg AlreadyDecidedPrimary ;;
    ret false
  else
  ready <- (quorum <- _hasViewChangeQuorum instance_id ;;
            if quorum then has_view_change_from_primary instance_id
            else ret false) ;;
  if negb ready then ret false else
  rv <- has_sufficient_same_view_change_done_messages instance_id ;;
  match rv with
  | None => ret false
  | Some (new_primary, ledger_info) =>
      _verify_primary_selection instance_id new_primary ledger_info
  end.

(* the outcome of the checks that follow the recording, spelled out *)
Definition verdict_once_tracked (msg : ViewChangeDone.t)
    (self : PrimarySelector) : PrimarySelector * outcome bool :=
  let instance_id := ViewChangeDone.instId msg in
  let quorum := get_strong_quorum (f self) in
  let expected := expected_primary_of instance_id self in
  let votes := recorded_votes instance_id self in
  match list_getitem (replicas self) instance_id with
  | None => (self, Raised IndexError)
  | Some replica =>
  if hasPrimary replica then
    (with_log (log self ++ [Discarded msg AlreadyDecidedPrimary]) self,
     Returned false)
  else if negb (quorum <=? Z.of_nat (List.length (voters instance_id self)))
  then (self, Returned false)
  else if totalNodes (node self) =? 0 then (self, Raised ZeroDivisionError)
  else if negb (dict_mem String.eqb expected
                         (declarations_of instance_id self))
  then (self, Returned false)
  else
  match dict_get Z.eqb instance_id (_view_change_done self) with
  | None => (self, Raised KeyError)
  | Some _ =>
  match mostCommonElement votes with
  | None => (self, Raised IndexError)
  | Some (new_primary, ledger_info) =>
  if negb (count votes (new_primary, ledger_info) >=? quorum)
  then (self, Returned false)
  else if String.eqb new_primary expected then (self, Returned true)
  else
    (with_log (log self ++
               [UnexpectedPrimary expected new_primary (viewNo self)]) self,
     Returned false)
  end end end.

(* one ledger comes from another by recording votes of new voters *)
Inductive ledger_extends : VoteLedger -> VoteLedger -> Prop :=
| extends_refl ledger : ledger_extends ledger ledger
| extends_record ledger ledger' instance_id voter data :
    ledger_extends ledger ledger' ->
    recorded_vote instance_id voter ledger' = None ->
    ledger_extends ledger (record_vote instance_id voter data ledger').

(* what happens to a selector within one view *)
Inductive Call : Type :=
| ProcessVote (msg : ViewChangeDone.t) (sender : NodeName)
| StartSelection.

Definition run_call (c : Call) (self : PrimarySelector) : PrimarySelector :=
  match c with
  | ProcessVote msg sender => fst (_processViewChangeDoneMessage msg sender self)
  | StartSelection => fst (_startSelection self)
  end.

Definition run_calls (calls : list Call) (self : PrimarySelector)
    : PrimarySelector :=
  fold_left (fun st c => run_call c st) calls self.

(* the replicas that have no primary yet *)
Definition undecided (rs : list Replica) : nat :=
  List.length (filter (fun r => negb (hasPrimary r)) rs).

(** ** Examples: four nodes, f = 1, view 1 *)

Definition ranks (rank : Z) : NodeName :=
  nth (Z.to_nat rank) ["Alpha"; "Beta"; "Gamma"; "Delta"]%string ""%string.

Definition a_ledger_info : LedgerInfo :=
  [[AInt 0; AInt 5; AStr "5Qx"]; [AInt 1; AInt 12; AStr "9Zk"]].

Definition alpha : PrimarySelector :=
  mkPrimarySelector "Alpha"%string 1 1 (mkNode 4 ranks 0)
    [mkReplica None; mkReplica None] a_ledger_info (Some "Alpha"%string)
    [] [] [].

Definition vote_for (primary : string) (instance_id view_no : Z)
    : ViewChangeDone.t :=
  ViewChangeDone.make primary instance_id view_no a_ledger_info.

(* Alpha after Beta and Gamma voted for Beta:0 *)
Definition alpha_two_votes : PrimarySelector :=
  run_calls [ProcessVote (vote_for "Beta:0" 0 1) "Beta"%string;
             ProcessVote (vote_for "Beta:0" 0 1) "Gamma"%string] alpha.

(* Alpha after Beta and Gamma voted for Gamma:0 *)
Definition alpha_two_votes_for_gamma : PrimarySelector :=
  run_calls [ProcessVote (vote_for "Gamma:0" 0 1) "Beta"%string;
             ProcessVote (vote_for "Gamma:0" 0 1) "Gamma"%string] alpha.

(** ** Vocabulary for the selection loop and the votes of an instance *)

(* the selector after the turn of _startSelection's loop for an instance
   whose replica has no primary: the vote is sent, recorded unless the node
   already has a vote there, the replica adopts the expected primary, the
   node is told, and for instance 0 the previous master primary is
   forgotten *)
Definition selected (instance_id : Z) (self : PrimarySelector)
    : PrimarySelector :=
  let expected := expected_primary_of instance_id self in
  let own := generateName (name self) instance_id in
  mkPrimarySelector (name self) (viewNo self) (f self)
    (mkNode (totalNodes (node self)) (get_name_by_rank (node self))
            (S (primary_found_calls (node self))))
    (list_update (Z.to_nat instance_id) (mkReplica (Some expected))
                 (replicas self))
    (ledger_info self)
    (if instance_id =? 0 then None else previous_master_primary self)
    (match recorded_vote instance_id own (_view_change_done self) with
     | Some _ => _view_change_done self
     | None =>
         record_vote instance_id own (expected, ledger_info self)
                     (_view_change_done self)
     end)
    (sent self ++
     [ViewChangeDone.make expected instance_id (viewNo self)
                          (ledger_info self)])
    (log self).

(* the selector after the loop went over the replicas [rs], the first of
   which is instance [k] *)
Fixpoint selection_from (k : nat) (rs : list Replica) (self : PrimarySelector)
    : PrimarySelector :=
  match rs with
  | [] => self
  | r :: rs' =>
      selection_from (S k) rs'
        (if hasPrimary r then self else selected (Z.of_nat k) self)
  end.

(* the replicas [rs], instance [k] first, each without a primary given the
   one [expected] names for its instance *)
Fixpoint assigned (expected : Z -> ReplicaName) (k : nat) (rs : list Replica)
    : list Replica :=
  match rs with
  | [] => []
  | r :: rs' =>
      (if hasPrimary r then r else mkReplica (Some (expected (Z.of_nat k))))
      :: assigned expected (S k) rs'
  end.

(* the node's votes for the replicas of [rs] that have no primary *)
Fixpoint own_votes (expected : Z -> ReplicaName) (view_no : Z)
    (ledger_info : LedgerInfo) (k : nat) (rs : list Replica)
    : list ViewChangeDone.t :=
  match rs with
  | [] => []
  | r :: rs' =>
      (if hasPrimary r then []
       else [ViewChangeDone.make (expected (Z.of_nat k)) (Z.of_nat k)
                                 view_no ledger_info])
      ++ own_votes expected view_no ledger_info (S k) rs'
  end.

(* the voters of an instance in a ledger *)
Definition voters_in (instance_id : Z) (ledger : VoteLedger)
    : list ReplicaName :=
  dict_keys (match dict_get Z.eqb instance_id ledger with
             | Some declarations => declarations
             | None => []
             end).

(* what the calls of one view leave alone: the node's name, the view number,
   f, the ledger summaries, the node count and the rank table; the ledger
   only grows *)
Definition same_view (self self' : PrimarySelector) : Prop :=
  name self' = name self /\
  viewNo self' = viewNo self /\
  f self' = f self /\
  ledger_info self' = ledger_info self /\
  totalNodes (node self') = totalNodes (node self) /\
  get_name_by_rank (node self') = get_name_by_rank (node self) /\
  ledger_extends (_view_change_done self) (_view_change_done self').

(* unfolds the plumbing of a computation *)
Ltac run_py :=
  unfold bind, get, ret, raise, modify, or_raise, discard, send,
    primary_found, primaryChanged; simpl.

(** * Facts *)

(** ** Dictionaries *)

Section PyDictFacts.
Context {K V : Type}.
Variable eqb : K -> K -> bool.
Hypothesis eqb_eq : forall a b, eqb a b = true <-> a = b.

Lemma eqb_refl_true k : eqb k k = true.
Proof. now apply eqb_eq. Qed.

Lemma eqb_neq_false a b : a <> b -> eqb a b = false.
Proof.
  intros Hab. destruct (eqb a b) eqn:E; [|reflexivity].
  apply eqb_eq in E. contradiction.
Qed.

Lemma dict_get_In k v (d : dict K V) : dict_get eqb k d = Some v -> In (k, v) d.
Proof.
  induction d as [|[k' v'] d IH]; simpl; [discriminate|].
  destruct (eqb k k') eqn:E.
  - apply eqb_eq in E. intros [= ->]. left. now subst.
  - intros H. right. now apply IH.
Qed.

Lemma dict_get_None_keys k (d : dict K V) :
  dict_get eqb k d = None <-> ~ In k (dict_keys d).
Proof.
  induction d as [|[k' v'] d IH]; simpl.
  - split; [intros _ []|reflexivity].
  - destruct (eqb k k') eqn:E.
    + apply eqb_eq in E. subst. split; [discriminate|].
      intros H. exfalso. apply H. now left.
    + rewrite IH. split.
      * intros H [Heq|Hin]; [|now apply H].
        subst. rewrite eqb_refl_true in E. discriminate.
      * intros H Hin. apply H. now right.
Qed.

Lemma dict_mem_keys k (d : dict K V) :
  dict_mem eqb k d = true <-> In k (dict_keys d).
Proof.
  unfold dict_mem. destruct (dict_get eqb k d) eqn:E.
  - split; [intros _|reflexivity].
    apply dict_get_In in E. apply (in_map fst) in E. exact E.
  - split; [discriminate|]. intros H.
    apply dict_get_None_keys in E. contradiction.
Qed.

Lemma dict_get_NoDup k v (d : dict K V) :
  NoDup (dict_keys d) -> In (k, v) d -> dict_get eqb k d = Some v.
Proof.
  induction d as [|[k' v'] d IH]; simpl; [intros _ []|].
  intros Hnd [Heq|Hin].
  - injection Heq as -> ->. now rewrite eqb_refl_true.
  - inversion Hnd as [|? ? Hnotin Hnd']; subst.
    destruct (eqb k k') eqn:E.
    + apply eqb_eq in E. subst. exfalso. apply Hnotin.
      apply (in_map fst) in Hin. exact Hin.
    + now apply IH.
Qed.

Lemma dict_get_set_same k v (d : dict K V) :
  dict_get eqb k (dict_set eqb k v d) = Some v.
Proof.
  induction d as [|[k' v'] d IH]; simpl.
  - now rewrite eqb_refl_true.
  - destruct (eqb k k') eqn:E; simpl; rewrite E; [reflexivity|exact IH].
Qed.

Lemma dict_get_set_other k k' v (d : dict K V) :
  k <> k' -> dict_get eqb k' (dict_set eqb k v d) = dict_get eqb k' d.
Proof.
  intros Hne. induction d as [|[k1 v1] d IH]; simpl.
  - rewrite eqb_neq_false; [reflexivity|]. intros ->. now apply Hne.
  - destruct (eqb k k1) eqn:E; simpl.
    + apply eqb_eq in E. subst k1.
      rewrite eqb_neq_false; [reflexivity|]. intros ->. now apply Hne.
    + destruct (eqb k' k1); [reflexivity|exact IH].
Qed.

(* a key that is not there goes to the end *)
Lemma dict_set_fresh k v (d : dict K V) :
  dict_get eqb k d = None -> dict_set eqb k v d = d ++ [(k, v)].
Proof.
  induction d as [|[k' v'] d IH]; simpl; [reflexivity|].
  destruct (eqb k k'); [discriminate|]. intros H. now rewrite IH.
Qed.

(* a key that is there keeps its place *)
Lemma dict_set_keys_present k v (d : dict K V) :
  dict_mem eqb k d = true -> dict_keys (dict_set eqb k v d) = dict_keys d.
Proof.
  unfold dict_mem.
  induction d as [|[k' v'] d IH]; simpl; [discriminate|].
  destruct (eqb k k') eqn:E; simpl; [reflexivity|].
  intros H. now rewrite IH.
Qed.

Lemma dict_set_NoDup k v (d : dict K V) :
  NoDup (dict_keys d) -> NoDup (dict_keys (dict_set eqb k v d)).
Proof.
  intros Hnd. destruct (dict_get eqb k d) eqn:E.
  - rewrite dict_set_keys_present; [exact Hnd|].
    unfold dict_mem. now rewrite E.
  - rewrite dict_set_fresh by exact E.
    unfold dict_keys. rewrite map_app. simpl.
    apply NoDup_app; [exact Hnd|repeat constructor; intros []|].
    intros x Hx [<-|[]]. apply dict_get_None_keys in E. contradiction.
Qed.

Lemma dict_set_set k v v' (d : dict K V) :
  dict_set eqb k v (dict_set eqb k v' d) = dict_set eqb k v d.
Proof.
  induction d as [|[k1 v1] d IH]; simpl.
  - now rewrite eqb_refl_true.
  - destruct (eqb k k1) eqn:E; simpl; rewrite E; [reflexivity|].
    now rewrite IH.
Qed.

(* what a dictionary holds after an assignment *)
Lemma dict_set_In k v k0 v0 (d : dict K V) :
  In (k0, v0) (dict_set eqb k v d) -> (k0 = k /\ v0 = v) \/ In (k0, v0) d.
Proof.
  induction d as [|[k1 v1] d IH]; simpl.
  - intros [[= <- <-]|[]]. now left.
  - destruct (eqb k k1) eqn:E; simpl.
    + apply eqb_eq in E. subst k1.
      intros [[= <- <-]|Hin]; [now left|right; now right].
    + intros [Heq|Hin]; [right; now left|].
      destruct (IH Hin) as [?|?]; [now left|right; now right].
Qed.
End PyDictFacts.

(** ** What each method computes *)

Lemma who_is_the_next_primary_run instance_id self :
  _who_is_the_next_primary instance_id self
  = (self,
     if totalNodes (node self) =? 0 then Raised ZeroDivisionError
     else Returned (expected_primary_of instance_id self)).
Proof.
  unfold _who_is_the_next_primary. run_py.
  destruct (totalNodes (node self) =? 0); reflexivity.
Qed.

Lemma track_view_change_done_run instance_id voter new_primary ledger_info self :
  _track_view_change_done instance_id voter new_primary ledger_info self
  = match recorded_vote instance_id voter (_view_change_done self) with
    | Some _ => (self, Returned false)
    | None =>
        (with_view_change_done
           (record_vote instance_id voter (new_primary, ledger_info)
                        (_view_change_done self)) self,
         Returned true)
    end.
Proof.
  unfold _track_view_change_done, recorded_vote, record_vote. run_py.
  destruct (dict_get Z.eqb instance_id (_view_change_done self)) as [m|] eqn:E.
  - unfold dict_mem.
    destruct (dict_get String.eqb voter m); reflexivity.
  - simpl. now rewrite (dict_set_set Z.eqb Z.eqb_eq).
Qed.

Lemma as_tuples_id vote : as_tuples vote = vote.
Proof. destruct vote as [nm info]. simpl. now rewrite map_id. Qed.

Lemma recorded_votes_values instance_id self :
  recorded_votes instance_id self
  = dict_values (declarations_of instance_id self).
Proof.
  unfold recorded_votes. rewrite (map_ext _ _ as_tuples_id). apply map_id.
Qed.

Lemma voters_length instance_id self :
  Z.of_nat (List.length (voters instance_id self))
  = dict_len (declarations_of instance_id self).
Proof. unfold voters, dict_keys, dict_len. now rewrite length_map. Qed.

Lemma hasViewChangeQuorum_run instance_id self :
  _hasViewChangeQuorum instance_id self
  = (self,
     Returned (get_strong_quorum (f self)
               <=? Z.of_nat (List.length (voters instance_id self)))).
Proof.
  unfold _hasViewChangeQuorum. run_py. rewrite voters_length.
  destruct (Z.gtb_spec
              (get_strong_quorum (f self)
               - dict_len (declarations_of instance_id self)) 0) as [H|H];
    destruct (Z.leb_spec
                (get_strong_quorum (f self))
                (dict_len (declarations_of instance_id self))) as [H'|H'];
    try reflexivity; lia.
Qed.

Lemma has_view_change_from_primary_run instance_id self :
  has_view_change_from_primary instance_id self
  = (self,
     if totalNodes (node self) =? 0 then Raised ZeroDivisionError
     else Returned (dict_mem String.eqb (expected_primary_of instance_id self)
                             (declarations_of instance_id self))).
Proof.
  unfold has_view_change_from_primary, bind at 1, get.
  unfold bind. rewrite who_is_the_next_primary_run.
  destruct (totalNodes (node self) =? 0); [reflexivity|].
  destruct (dict_mem String.eqb _ _); reflexivity.
Qed.

Lemma has_sufficient_run instance_id self :
  has_sufficient_same_view_change_done_messages instance_id self
  = (self,
     match dict_get Z.eqb instance_id (_view_change_done self) with
     | None => Raised KeyError
     | Some _ =>
         let votes := recorded_votes instance_id self in
         match mostCommonElement votes with
         | None => Raised IndexError
         | Some most_common =>
             Returned
               (if count votes most_common >=? get_strong_quorum (f self)
                then Some most_common else None)
         end
     end).
Proof.
  unfold has_sufficient_same_view_change_done_messages, recorded_votes,
    declarations_of.
  run_py.
  destruct (dict_get Z.eqb instance_id (_view_change_done self)) as [d|];
    [|reflexivity].
  simpl. destruct (mostCommonElement _) as [[p li]|]; [|reflexivity].
  simpl. destruct (_ >=? _); reflexivity.
Qed.

Lemma verify_primary_selection_run instance_id new_primary ledger_info self :
  _verify_primary_selection instance_id new_primary ledger_info self
  = if totalNodes (node self) =? 0 then (self, Raised ZeroDivisionError)
    else if String.eqb new_primary (expected_primary_of instance_id self)
    then (self, Returned true)
    else (with_log
            (log self ++
             [UnexpectedPrimary (expected_primary_of instance_id self)
                                new_primary (viewNo self)]) self,
          Returned false).
Proof.
  unfold _verify_primary_selection, bind at 1.
  rewrite who_is_the_next_primary_run.
  destruct (totalNodes (node self) =? 0); [reflexivity|].
  destruct (String.eqb _ _); reflexivity.
Qed.

Lemma decide_once_tracked_run msg self :
  decide_once_tracked msg self = verdict_once_tracked msg self.
Proof.
  unfold decide_once_tracked, verdict_once_tracked.
  unfold bind at 1, get. unfold bind at 1.
  destruct (list_getitem (replicas self) (ViewChangeDone.instId msg))
    as [replica|]; [|reflexivity].
  simpl. destruct (hasPrimary replica); [reflexivity|].
  unfold bind at 1. unfold bind at 1.
  rewrite hasViewChangeQuorum_run.
  destruct (_ <=? _); [|reflexivity].
  rewrite has_view_change_from_primary_run.
  destruct (totalNodes (node self) =? 0) eqn:Etotal; [reflexivity|].
  destruct (dict_mem String.eqb _ _); [|reflexivity].
  simpl. unfold bind at 1. rewrite has_sufficient_run.
  destruct (dict_get Z.eqb _ _); [|reflexivity].
  simpl. destruct (mostCommonElement _) as [[p li]|]; [|reflexivity].
  destruct (_ >=? _); [|reflexivity].
  simpl. rewrite verify_primary_selection_run, Etotal. reflexivity.
Qed.

Lemma processViewChangeDoneMessage_run msg sender self :
  _processViewChangeDoneMessage msg sender self
  = let instance_id := ViewChangeDone.instId msg in
    let voter := generateName sender instance_id in
    if negb (viewNo self =? ViewChangeDone.viewNo msg) then
      (with_log (log self ++ [Discarded msg OtherViewNo]) self, Returned false)
    else if _is_master_instance instance_id &&
            match previous_master_primary self with
            | Some p => String.eqb (getNodeName (ViewChangeDone.name msg)) p
            | None => false
            end
    then
      (with_log (log self ++ [Discarded msg PrimaryOfPreviousView]) self,
       Returned false)
    else
      match recorded_vote instance_id voter (_view_change_done self) with
      | Some _ =>
          (with_log (log self ++ [Discarded msg AlreadyMarkedDone]) self,
           Returned false)
      | None =>
          decide_once_tracked msg
            (with_view_change_done
               (record_vote instance_id voter
                  (ViewChangeDone.name msg, ViewChangeDone.ledgerInfo msg)
                  (_view_change_done self)) self)
      end.
Proof.
  unfold _processViewChangeDoneMessage. unfold bind at 1, get.
  destruct (negb _); [reflexivity|].
  destruct (_ && _); [reflexivity|].
  unfold bind at 1. rewrite track_view_change_done_run.
  cbv zeta.
  destruct (recorded_vote _ _ _); reflexivity.
Qed.

(** ** The most common element *)

Lemma count_nonneg votes x : 0 <= count votes x.
Proof. unfold count. lia. Qed.

Lemma count_not_In votes x : ~ In x votes -> count votes x = 0.
Proof.
  intros H. unfold count.
  now rewrite (proj1 (count_occ_not_In VoteData_eq_dec votes x) H).
Qed.

Lemma most_common_from_spec all rest : forall best,
  let r := most_common_from all best rest in
  (r = best \/ In r rest) /\
  count all best <= count all r /\
  (forall y, In y rest -> count all y <= count all r).
Proof.
  induction rest as [|x rest IH]; intros best; simpl.
  - split; [now left|]. split; [lia|intros y []].
  - destruct (Z.ltb_spec (count all best) (count all x)) as [Hlt|Hge].
    + destruct (IH x) as (Hin & Hx & Hrest). split; [|split].
      * destruct Hin as [->|Hin]; right; [now left|now right].
      * lia.
      * intros y [<-|Hy]; [exact Hx|now apply Hrest].
    + destruct (IH best) as (Hin & Hbest & Hrest). split; [|split].
      * destruct Hin as [->|Hin]; [now left|right; now right].
      * exact Hbest.
      * intros y [<-|Hy]; [lia|now apply Hrest].
Qed.

Lemma mostCommonElement_most_frequent votes x :
  mostCommonElement votes = Some x -> most_frequent x votes.
Proof.
  destruct votes as [|v rest]; simpl; [discriminate|].
  intros [= <-].
  destruct (most_common_from_spec (v :: rest) rest v) as (Hin & Hv & Hrest).
  split.
  - destruct Hin as [->|Hin]; [now left|now right].
  - intros y. destruct (in_dec VoteData_eq_dec y (v :: rest)) as [Hy|Hy].
    + destruct Hy as [<-|Hy]; [exact Hv|now apply Hrest].
    + rewrite (count_not_In _ _ Hy). apply count_nonneg.
Qed.

Lemma mostCommonElement_nonempty votes :
  votes <> [] -> exists x, mostCommonElement votes = Some x.
Proof.
  destruct votes as [|v rest]; [congruence|]. intros _. simpl. eauto.
Qed.

(** ** The vote ledger *)

Lemma recorded_vote_record_same instance_id voter data ledger :
  recorded_vote instance_id voter (record_vote instance_id voter data ledger)
  = Some data.
Proof.
  unfold recorded_vote, record_vote.
  rewrite (dict_get_set_same Z.eqb Z.eqb_eq).
  apply (dict_get_set_same String.eqb String.eqb_eq).
Qed.

Lemma recorded_vote_record_other i s i' s' data ledger :
  (i', s') <> (i, s) ->
  recorded_vote i' s' (record_vote i s data ledger)
  = recorded_vote i' s' ledger.
Proof.
  intros Hne. unfold recorded_vote, record_vote.
  destruct (Z.eq_dec i i') as [<-|Hi].
  - rewrite (dict_get_set_same Z.eqb Z.eqb_eq).
    assert (Hs : s <> s') by (intros <-; now apply Hne).
    rewrite (dict_get_set_other String.eqb String.eqb_eq) by exact Hs.
    destruct (dict_get Z.eqb i ledger); reflexivity.
  - now rewrite (dict_get_set_other Z.eqb Z.eqb_eq) by exact Hi.
Qed.

(* writing a new voter's vote leaves every vote already kept where it is *)
Lemma record_vote_keeps i s data ledger i' s' data' :
  recorded_vote i s ledger = None ->
  recorded_vote i' s' ledger = Some data' ->
  recorded_vote i' s' (record_vote i s data ledger) = Some data'.
Proof.
  intros Hnew Hold. rewrite recorded_vote_record_other; [exact Hold|].
  intros [= -> ->]. congruence.
Qed.

Lemma record_vote_changes i s data ledger :
  recorded_vote i s ledger = None -> record_vote i s data ledger <> ledger.
Proof.
  intros Hnew Heq.
  pose proof (recorded_vote_record_same i s data ledger) as H.
  rewrite Heq in H. congruence.
Qed.

Lemma declarations_of_record i s data self :
  declarations_of i
    (with_view_change_done (record_vote i s data (_view_change_done self)) self)
  = dict_set String.eqb s data (declarations_of i self).
Proof.
  unfold declarations_of, record_vote. simpl.
  now rewrite (dict_get_set_same Z.eqb Z.eqb_eq).
Qed.

Lemma record_vote_wf i s data ledger :
  ledger_wf ledger -> ledger_wf (record_vote i s data ledger).
Proof.
  intros [Hkeys Hinner]. unfold record_vote. split.
  - now apply (dict_set_NoDup Z.eqb Z.eqb_eq).
  - intros i' m Hin.
    apply (dict_set_In Z.eqb Z.eqb_eq) in Hin as [[-> ->]|Hin].
    + apply (dict_set_NoDup String.eqb String.eqb_eq).
      destruct (dict_get Z.eqb i ledger) as [m|] eqn:E; [|constructor].
      apply (dict_get_In Z.eqb Z.eqb_eq) in E. now apply (Hinner i).
    + now apply (Hinner i').
Qed.

Lemma declarations_of_wf i self :
  ledger_wf (_view_change_done self) -> NoDup (voters i self).
Proof.
  intros [_ Hinner]. unfold voters, declarations_of.
  destruct (dict_get Z.eqb i (_view_change_done self)) as [m|] eqn:E;
    [|constructor].
  apply (dict_get_In Z.eqb Z.eqb_eq) in E. now apply (Hinner i).
Qed.

(** ** Lists that grow at the end *)

Lemma app_one_neq {A : Type} (l : list A) x : l ++ [x] <> l.
Proof.
  intros H. apply (f_equal (@List.length A)) in H.
  rewrite length_app in H. simpl in H. lia.
Qed.

Lemma app_one_inj {A : Type} (l : list A) x y : l ++ [x] = l ++ [y] -> x = y.
Proof. intros H. apply app_inv_head in H. now injection H. Qed.

(** ** Processing a vote *)

(* the checks that follow the recording write to the log and nowhere else *)
Lemma decide_once_tracked_frame msg self :
  exists entries,
    fst (decide_once_tracked msg self)
    = with_log (log self ++ entries) self.
Proof.
  rewrite decide_once_tracked_run. unfold verdict_once_tracked.
  assert (Hsame : self = with_log (log self ++ []) self)
    by (rewrite app_nil_r; now destruct self).
  repeat match goal with
         | |- context [match ?x with _ => _ end] => destruct x
         end;
    simpl; solve [ exists []; exact Hsame | eexists; reflexivity ].
Qed.

Lemma decide_once_tracked_ledger msg self :
  _view_change_done (fst (decide_once_tracked msg self))
  = _view_change_done self.
Proof.
  destruct (decide_once_tracked_frame msg self) as [entries ->]. reflexivity.
Qed.

Lemma not_proposes_previous_master_primary msg self :
  ~ proposes_previous_master_primary msg self ->
  _is_master_instance (ViewChangeDone.instId msg) &&
  match previous_master_primary self with
  | Some p => String.eqb (getNodeName (ViewChangeDone.name msg)) p
  | None => false
  end = false.
Proof.
  intros H. unfold _is_master_instance, proposes_previous_master_primary in *.
  destruct (Z.eqb_spec (ViewChangeDone.instId msg) 0) as [Hi|Hi];
    [|reflexivity].
  simpl. destruct (previous_master_primary self) as [p|]; [|reflexivity].
  destruct (String.eqb_spec (getNodeName (ViewChangeDone.name msg)) p)
    as [Hp|Hp]; [|reflexivity].
  exfalso. apply H. split; [exact Hi|now rewrite Hp].
Qed.

(** C4: a vote whose view number is not the node's current one is answered
    with False, and the instance -> voter -> vote mapping is after the call
    what it was before; the call only logs the discard. *)
Theorem other_view_vote_leaves_ledger msg sender self :
  ViewChangeDone.viewNo msg <> viewNo self ->
  exists self',
    _processViewChangeDoneMessage msg sender self = (self', Returned false) /\
    _view_change_done self' = _view_change_done self /\
    log self' = log self ++ [Discarded msg OtherViewNo].
Proof.
  intros Hview. rewrite processViewChangeDoneMessage_run. cbv zeta.
  destruct (Z.eqb_spec (viewNo self) (ViewChangeDone.viewNo msg)) as [E|_];
    [congruence|].
  simpl. eexists. split; [reflexivity|]. split; reflexivity.
Qed.

Lemma other_view_vote_leaves_ledger_witness :
  exists self',
    _processViewChangeDoneMessage (vote_for "Beta:0" 0 0) "Beta"%string
                                  alpha_two_votes
    = (self', Returned false) /\
    _view_change_done self' = _view_change_done alpha_two_votes /\
    log self' = log alpha_two_votes
                ++ [Discarded (vote_for "Beta:0" 0 0) OtherViewNo].
Proof.
  apply (other_view_vote_leaves_ledger (vote_for "Beta:0" 0 0) "Beta"%string
                                       alpha_two_votes).
  vm_compute. discriminate.
Defined.

(** C2: when the node name of the claimed primary is the stored previous
    master primary, a vote on the master instance (instance 0) is answered
    with False and nothing is written into the vote ledger, whatever the
    ledger already holds; a vote on any other instance is processed as if no
    previous master primary were stored. *)
Theorem previous_master_primary_not_reelected msg sender self :
  previous_master_primary self
  = Some (getNodeName (ViewChangeDone.name msg)) ->
  (ViewChangeDone.instId msg = 0 ->
   exists self',
     _processViewChangeDoneMessage msg sender self = (self', Returned false) /\
     _view_change_done self' = _view_change_done self) /\
  (ViewChangeDone.instId msg <> 0 ->
   _processViewChangeDoneMessage msg sender self
   = let '(self', r) :=
       _processViewChangeDoneMessage msg sender
         (with_previous_master_primary None self) in
     (with_previous_master_primary (previous_master_primary self) self', r)).
Proof.
  intros Hprev. split.
  - intros Hmaster. rewrite processViewChangeDoneMessage_run. cbv zeta.
    destruct (negb _).
    + eexists. split; reflexivity.
    + rewrite Hprev, Hmaster, String.eqb_refl. simpl.
      eexists. split; reflexivity.
  - intros Hbackup. rewrite !processViewChangeDoneMessage_run. cbv zeta.
    unfold _is_master_instance.
    destruct (Z.eqb_spec (ViewChangeDone.instId msg) 0) as [E|_];
      [contradiction|].
    rewrite !decide_once_tracked_run. unfold verdict_once_tracked.
    destruct self as [nm vw ff nd rs li pmp vcd snt lg]. simpl.
    unfold recorded_votes, voters, declarations_of, expected_primary_of.
    simpl.
    repeat match goal with
           | |- context [match ?x with _ => _ end] => destruct x
           end; reflexivity.
Qed.

Lemma previous_master_primary_not_reelected_witness :
  exists self',
    _processViewChangeDoneMessage (vote_for "Alpha:0" 0 1) "Delta"%string
                                  alpha_two_votes
    = (self', Returned false) /\
    _view_change_done self' = _view_change_done alpha_two_votes.
Proof.
  apply (proj1 (previous_master_primary_not_reelected
                  (vote_for "Alpha:0" 0 1) "Delta"%string alpha_two_votes
                  eq_refl)).
  reflexivity.
Defined.

(* a vote of the current view that passes the anti-flap test and comes from
   a new voter: the call goes on with the vote written into the ledger *)
Lemma fresh_vote_run msg sender self :
  ViewChangeDone.viewNo msg = viewNo self ->
  ~ proposes_previous_master_primary msg self ->
  recorded_vote (ViewChangeDone.instId msg)
                (generateName sender (ViewChangeDone.instId msg))
                (_view_change_done self) = None ->
  _processViewChangeDoneMessage msg sender self
  = decide_once_tracked msg
      (with_view_change_done
         (record_vote (ViewChangeDone.instId msg)
            (generateName sender (ViewChangeDone.instId msg))
            (ViewChangeDone.name msg, ViewChangeDone.ledgerInfo msg)
            (_view_change_done self)) self).
Proof.
  intros Hview Hflap Hnew. rewrite processViewChangeDoneMessage_run. cbv zeta.
  rewrite Hview, Z.eqb_refl. simpl.
  rewrite (not_proposes_previous_master_primary _ _ Hflap), Hnew.
  reflexivity.
Qed.

(** C10: a vote of the current view that passes the anti-flap test and comes
    from a voter not yet recorded for the instance is written into the vote
    ledger before the replica is asked for its primary and before any quorum
    is counted: whatever the call returns or raises, the ledger afterwards is
    the old one with this vote added, and the vote is among the votes later
    counts see.  In particular the call returns False with the vote recorded
    when the replica already has a primary, and when the voters are fewer
    than the strong quorum. *)
Theorem fresh_vote_recorded_before_checks msg sender self :
  let instance_id := ViewChangeDone.instId msg in
  let voter := generateName sender instance_id in
  let data := (ViewChangeDone.name msg, ViewChangeDone.ledgerInfo msg) in
  ViewChangeDone.viewNo msg = viewNo self ->
  ~ proposes_previous_master_primary msg self ->
  recorded_vote instance_id voter (_view_change_done self) = None ->
  exists self' r,
    _processViewChangeDoneMessage msg sender self = (self', r) /\
    _view_change_done self'
    = record_vote instance_id voter data (_view_change_done self) /\
    recorded_vote instance_id voter (_view_change_done self') = Some data /\
    In data (recorded_votes instance_id self') /\
    (forall replica,
       list_getitem (replicas self) instance_id = Some replica ->
       (hasPrimary replica = true \/
        Z.of_nat (List.length (voters instance_id self'))
        < get_strong_quorum (f self)) ->
       r = Returned false).
Proof.
  intros instance_id voter data Hview Hflap Hnew.
  set (tracked := with_view_change_done
                    (record_vote instance_id voter data
                                 (_view_change_done self)) self).
  pose proof (fresh_vote_run msg sender self Hview Hflap Hnew) as Hrun.
  fold instance_id voter data tracked in Hrun.
  destruct (decide_once_tracked msg tracked) as [self' r] eqn:Hdecide.
  exists self', r. split; [exact Hrun|].
  assert (Hledger : _view_change_done self'
                    = record_vote instance_id voter data
                                  (_view_change_done self)).
  { pose proof (decide_once_tracked_ledger msg tracked) as H.
    rewrite Hdecide in H. exact H. }
  assert (Hdecl : declarations_of instance_id self'
                  = declarations_of instance_id tracked).
  { unfold declarations_of. now rewrite Hledger. }
  split; [exact Hledger|]. split; [|split].
  - rewrite Hledger. apply recorded_vote_record_same.
  - rewrite recorded_votes_values, Hdecl.
    unfold tracked. rewrite declarations_of_record.
    pose proof (dict_get_set_same String.eqb String.eqb_eq voter data
                  (declarations_of instance_id self)) as H.
    apply (dict_get_In String.eqb String.eqb_eq) in H.
    apply (in_map snd) in H. exact H.
  - intros replica Hreplica Hwhy.
    rewrite decide_once_tracked_run in Hdecide.
    unfold verdict_once_tracked in Hdecide.
    fold instance_id in Hdecide.
    change (replicas tracked) with (replicas self) in Hdecide.
    rewrite Hreplica in Hdecide.
    destruct (hasPrimary replica) eqn:Hprimary.
    + now injection Hdecide as _ <-.
    + destruct Hwhy as [Hwhy|Hwhy]; [discriminate|].
      assert (Hvoters : voters instance_id self' = voters instance_id tracked)
        by (unfold voters; now rewrite Hdecl).
      rewrite Hvoters in Hwhy.
      change (f tracked) with (f self) in Hdecide.
      destruct (Z.leb_spec (get_strong_quorum (f self))
                  (Z.of_nat (List.length (voters instance_id tracked))))
        as [Hq|Hq]; [lia|].
      simpl in Hdecide. now injection Hdecide as _ <-.
Qed.

(** ** How the ledger grows within a view *)

Lemma ledger_extends_trans l1 l2 l3 :
  ledger_extends l1 l2 -> ledger_extends l2 l3 -> ledger_extends l1 l3.
Proof.
  intros H12 H23. induction H23 as [|l2 l3 i s d _ IH Hnew];
    [exact H12|]. apply extends_record; [now apply IH|exact Hnew].
Qed.

Lemma ledger_extends_wf l1 l2 :
  ledger_extends l1 l2 -> ledger_wf l1 -> ledger_wf l2.
Proof.
  intros H Hwf. induction H as [|l1 l2 i s d _ IH Hnew]; [exact Hwf|].
  apply record_vote_wf. now apply IH.
Qed.

Lemma ledger_extends_keeps l1 l2 instance_id voter data :
  ledger_extends l1 l2 ->
  recorded_vote instance_id voter l1 = Some data ->
  recorded_vote instance_id voter l2 = Some data.
Proof.
  intros H Hold. induction H as [|l1 l2 i s d _ IH Hnew]; [exact Hold|].
  apply record_vote_keeps; [exact Hnew|now apply IH].
Qed.

Lemma track_view_change_done_extends i s p li self :
  ledger_extends (_view_change_done self)
    (_view_change_done (fst (_track_view_change_done i s p li self))).
Proof.
  rewrite track_view_change_done_run.
  destruct (recorded_vote i s (_view_change_done self)) eqn:E; simpl.
  - constructor.
  - apply extends_record; [constructor|exact E].
Qed.

Lemma processViewChangeDoneMessage_extends msg sender self :
  ledger_extends (_view_change_done self)
    (_view_change_done (fst (_processViewChangeDoneMessage msg sender self))).
Proof.
  rewrite processViewChangeDoneMessage_run. cbv zeta.
  destruct (negb _); [constructor|].
  destruct (_ && _); [constructor|].
  destruct (recorded_vote _ _ _) eqn:E; [constructor|].
  rewrite decide_once_tracked_ledger. simpl.
  apply extends_record; [constructor|exact E].
Qed.

Lemma select_primary_of_extends instance_id replica self :
  ledger_extends (_view_change_done self)
    (_view_change_done (fst (select_primary_of instance_id replica self))).
Proof.
  unfold select_primary_of.
  destruct (primaryName replica); [constructor|].
  unfold bind at 1, get. unfold bind at 1.
  rewrite who_is_the_next_primary_run.
  destruct (totalNodes (node self) =? 0); [constructor|].
  unfold _send_view_change_done_message. run_py.
  pose proof (track_view_change_done_extends instance_id
                (generateName (name self) instance_id)
                (expected_primary_of instance_id self) (ledger_info self)
                (with_sent
                   (sent self ++
                    [ViewChangeDone.make (expected_primary_of instance_id self)
                       instance_id (viewNo self) (ledger_info self)]) self))
    as H.
  destruct (_track_view_change_done _ _ _ _ _) as [self1 [b|e]]; simpl in *.
  - destruct (instance_id =? 0); exact H.
  - exact H.
Qed.

Lemma for_each_extends {A : Type} (body : A -> M unit) :
  (forall x self,
     ledger_extends (_view_change_done self)
                    (_view_change_done (fst (body x self)))) ->
  forall l self,
    ledger_extends (_view_change_done self)
                   (_view_change_done (fst (for_each body l self))).
Proof.
  intros Hbody l. induction l as [|x l IH]; intros self; simpl.
  - constructor.
  - unfold bind. pose proof (Hbody x self) as Hx.
    destruct (body x self) as [self1 [[]|e]]; simpl in *; [|exact Hx].
    eapply ledger_extends_trans; [exact Hx|apply IH].
Qed.

Lemma startSelection_extends self :
  ledger_extends (_view_change_done self)
                 (_view_change_done (fst (_startSelection self))).
Proof.
  unfold _startSelection, bind, get.
  apply for_each_extends. intros [i r] st. apply select_primary_of_extends.
Qed.

Lemma run_calls_extends calls : forall self,
  ledger_extends (_view_change_done self)
                 (_view_change_done (run_calls calls self)).
Proof.
  unfold run_calls.
  induction calls as [|c calls IH]; intros self; simpl; [constructor|].
  eapply ledger_extends_trans; [|apply IH].
  destruct c; simpl.
  - apply processViewChangeDoneMessage_extends.
  - apply startSelection_extends.
Qed.

(* a ledger filled by calls on an empty one is well formed *)
Lemma run_calls_wf calls self :
  ledger_wf (_view_change_done self) ->
  ledger_wf (_view_change_done (run_calls calls self)).
Proof. apply ledger_extends_wf, run_calls_extends. Qed.

Lemma empty_ledger_wf : ledger_wf [].
Proof. split; [constructor|intros ? ? []]. Qed.

(** ** Deciding *)

Lemma decide_once_tracked_true msg self self' :
  decide_once_tracked msg self = (self', Returned true) ->
  self' = self /\ decision_conditions (ViewChangeDone.instId msg) self.
Proof.
  rewrite decide_once_tracked_run. unfold verdict_once_tracked.
  destruct (list_getitem _ _) as [replica|]; [|discriminate].
  destruct (hasPrimary replica); [discriminate|].
  destruct (Z.leb_spec (get_strong_quorum (f self))
              (Z.of_nat (List.length
                           (voters (ViewChangeDone.instId msg) self))))
    as [Hquorum|_]; [|discriminate].
  simpl. destruct (totalNodes (node self) =? 0); [discriminate|].
  destruct (dict_mem String.eqb _ _) eqn:Hprimary; [|discriminate].
  simpl. destruct (dict_get Z.eqb _ _); [|discriminate].
  destruct (mostCommonElement _) as [[p li]|] eqn:Hmost; [|discriminate].
  destruct (Z.geb_spec (count (recorded_votes (ViewChangeDone.instId msg) self)
                              (p, li))
                       (get_strong_quorum (f self))) as [Hcount|_];
    [|discriminate].
  simpl. destruct (String.eqb_spec p
                     (expected_primary_of (ViewChangeDone.instId msg) self))
    as [Hexpected|_]; [|discriminate].
  intros [= <-]. split; [reflexivity|].
  unfold decision_conditions. split; [exact Hquorum|]. split.
  - now apply (dict_mem_keys String.eqb String.eqb_eq).
  - exists p, li. split; [exact Hmost|]. split.
    + now apply mostCommonElement_most_frequent.
    + split; [lia|exact Hexpected].
Qed.

Lemma is_instance_getitem instance_id self :
  is_instance instance_id self ->
  exists replica, list_getitem (replicas self) instance_id = Some replica.
Proof.
  unfold is_instance, list_getitem. intros [Hlo Hhi].
  destruct (Z.leb_spec 0 instance_id); [|lia].
  destruct (Z.ltb_spec instance_id (Z.of_nat (List.length (replicas self))));
    [|lia].
  simpl.
  destruct (nth_error (replicas self) (Z.to_nat instance_id)) eqn:E;
    [eauto|].
  apply nth_error_None in E. lia.
Qed.

(* with a replica for the instance and a node set that is not empty, the
   checks end by returning *)
Lemma decide_once_tracked_returns msg self :
  is_instance (ViewChangeDone.instId msg) self ->
  totalNodes (node self) <> 0 ->
  exists b, snd (decide_once_tracked msg self) = Returned b.
Proof.
  intros Hinstance Htotal.
  rewrite decide_once_tracked_run. unfold verdict_once_tracked.
  destruct (is_instance_getitem _ _ Hinstance) as [replica ->].
  destruct (hasPrimary replica); [simpl; eauto|].
  destruct (_ <=? _); simpl; [|eauto].
  destruct (Z.eqb_spec (totalNodes (node self)) 0); [contradiction|].
  destruct (dict_mem String.eqb _ _) eqn:Hprimary; simpl; [|eauto].
  rewrite recorded_votes_values.
  unfold declarations_of in *.
  destruct (dict_get Z.eqb _ _) as [declarations|]; [|discriminate].
  destruct declarations as [|[k v] declarations]; [discriminate|].
  simpl. destruct (most_common_from _ _ _) as [p li].
  destruct (_ >=? _); simpl; [|eauto].
  destruct (String.eqb _ _); simpl; eauto.
Qed.

(** C1: [_processViewChangeDoneMessage] returns True only when, with the
    vote recorded, the voters of the instance (each counted once) are at
    least the strong quorum, the replica that is the expected primary of the
    instance in this view is among them, and the most common (claimed
    primary, ledger info) pair among the recorded votes occurs at least
    strong-quorum times and names the expected primary.  For an instance the
    node has a replica for, the call returns, and it returns False as soon
    as one of these fails. *)
Theorem decision_needs_quorum_and_primary msg sender self :
  let instance_id := ViewChangeDone.instId msg in
  ledger_wf (_view_change_done self) ->
  (forall self',
     _processViewChangeDoneMessage msg sender self = (self', Returned true) ->
     NoDup (voters instance_id self') /\
     decision_conditions instance_id self') /\
  (is_instance instance_id self -> totalNodes (node self) <> 0 ->
   exists self' b,
     _processViewChangeDoneMessage msg sender self = (self', Returned b) /\
     (~ decision_conditions instance_id self' -> b = false)).
Proof.
  intros instance_id Hwf.
  assert (Htrue : forall self',
            _processViewChangeDoneMessage msg sender self
            = (self', Returned true) ->
            NoDup (voters instance_id self') /\
            decision_conditions instance_id self').
  { intros self' Hrun. split.
    - apply declarations_of_wf.
      pose proof (processViewChangeDoneMessage_extends msg sender self) as H.
      rewrite Hrun in H. eapply ledger_extends_wf; [exact H|exact Hwf].
    - rewrite processViewChangeDoneMessage_run in Hrun. cbv zeta in Hrun.
      destruct (negb _); [discriminate|].
      destruct (_ && _); [discriminate|].
      destruct (recorded_vote _ _ _); [discriminate|].
      apply decide_once_tracked_true in Hrun as [-> Hconditions].
      exact Hconditions. }
  split; [exact Htrue|].
  intros Hinstance Htotal.
  assert (Hreturns : exists b,
            snd (_processViewChangeDoneMessage msg sender self) = Returned b).
  { rewrite processViewChangeDoneMessage_run. cbv zeta.
    destruct (negb _); [simpl; eauto|].
    destruct (_ && _); [simpl; eauto|].
    destruct (recorded_vote _ _ _); [simpl; eauto|].
    apply decide_once_tracked_returns; assumption. }
  destruct Hreturns as [b Hb].
  destruct (_processViewChangeDoneMessage msg sender self) as [self' r] eqn:Hrun.
  simpl in Hb. subst r. exists self', b. split; [reflexivity|].
  intros Hfails. destruct b; [|reflexivity].
  exfalso. apply Hfails. now apply Htrue.
Qed.

Lemma decision_needs_quorum_and_primary_witness :
  let decided :=
    fst (_processViewChangeDoneMessage (vote_for "Beta:0" 0 1) "Delta"%string
                                       alpha_two_votes) in
  NoDup (voters 0 decided) /\ decision_conditions 0 decided.
Proof.
  apply (proj1 (decision_needs_quorum_and_primary
                  (vote_for "Beta:0" 0 1) "Delta"%string alpha_two_votes
                  (run_calls_wf _ alpha empty_ledger_wf))).
  vm_compute. reflexivity.
Defined.

(** ** A majority for an unexpected primary *)

Lemma decide_once_tracked_unexpected msg self self' r expected declared view :
  decide_once_tracked msg self = (self', r) ->
  log self' = log self ++ [UnexpectedPrimary expected declared view] ->
  r = Returned false /\
  self' = with_log (log self ++ [UnexpectedPrimary expected declared view])
                   self /\
  expected = expected_primary_of (ViewChangeDone.instId msg) self /\
  declared <> expected /\
  exists ledger_info,
    mostCommonElement (recorded_votes (ViewChangeDone.instId msg) self)
    = Some (declared, ledger_info) /\
    get_strong_quorum (f self)
    <= count (recorded_votes (ViewChangeDone.instId msg) self)
             (declared, ledger_info).
Proof.
  rewrite decide_once_tracked_run. unfold verdict_once_tracked.
  assert (Hquiet : forall o : outcome bool,
            (self, o) = (self', r) ->
            log self' = log self ++ [UnexpectedPrimary expected declared view]
            -> False).
  { intros o [= <- _] H. symmetry in H. now apply app_one_neq in H. }
  destruct (list_getitem _ _) as [replica|]; [|intros H1 H2; now destruct (Hquiet _ H1 H2)].
  destruct (hasPrimary replica).
  { intros [= <- _]. simpl. intros H. apply app_one_inj in H. discriminate. }
  destruct (negb _); [intros H1 H2; now destruct (Hquiet _ H1 H2)|].
  destruct (totalNodes (node self) =? 0);
    [intros H1 H2; now destruct (Hquiet _ H1 H2)|].
  destruct (negb _); [intros H1 H2; now destruct (Hquiet _ H1 H2)|].
  destruct (dict_get Z.eqb _ _); [|intros H1 H2; now destruct (Hquiet _ H1 H2)].
  destruct (mostCommonElement _) as [[p li]|];
    [|intros H1 H2; now destruct (Hquiet _ H1 H2)].
  destruct (Z.geb_spec (count (recorded_votes (ViewChangeDone.instId msg) self)
                              (p, li))
                       (get_strong_quorum (f self))) as [Hcount|_];
    [|intros H1 H2; now destruct (Hquiet _ H1 H2)].
  simpl.
  destruct (String.eqb_spec p
              (expected_primary_of (ViewChangeDone.instId msg) self))
    as [_|Hne]; [intros H1 H2; now destruct (Hquiet _ H1 H2)|].
  intros [= <- <-]. simpl. intros H. apply app_one_inj in H.
  injection H as <- <- <-.
  split; [reflexivity|]. split; [reflexivity|]. split; [reflexivity|].
  split; [exact Hne|]. exists li. split; [reflexivity|lia].
Qed.

(* the disagreement is logged by the final verification and nowhere else:
   a call that logs it has recorded a new voter's vote, found a majority for
   a primary that is not the expected one, and returns False *)
Lemma unexpected_primary_logged_only_at_verification
    msg sender self self' r expected declared view :
  let instance_id := ViewChangeDone.instId msg in
  let voter := generateName sender instance_id in
  _processViewChangeDoneMessage msg sender self = (self', r) ->
  log self' = log self ++ [UnexpectedPrimary expected declared view] ->
  r = Returned false /\
  replicas self' = replicas self /\
  viewNo self' = viewNo self /\
  previous_master_primary self' = previous_master_primary self /\
  node self' = node self /\
  sent self' = sent self /\
  recorded_vote instance_id voter (_view_change_done self) = None /\
  _view_change_done self'
  = record_vote instance_id voter
      (ViewChangeDone.name msg, ViewChangeDone.ledgerInfo msg)
      (_view_change_done self) /\
  expected = expected_primary_of instance_id self /\
  declared <> expected /\
  exists ledger_info,
    mostCommonElement (recorded_votes instance_id self')
    = Some (declared, ledger_info) /\
    get_strong_quorum (f self)
    <= count (recorded_votes instance_id self') (declared, ledger_info).
Proof.
  intros instance_id voter.
  rewrite processViewChangeDoneMessage_run. cbv zeta.
  fold instance_id voter.
  destruct (negb _).
  { intros [= <- _]. simpl. intros H. apply app_one_inj in H. discriminate. }
  destruct (_ && _).
  { intros [= <- _]. simpl. intros H. apply app_one_inj in H. discriminate. }
  destruct (recorded_vote instance_id voter (_view_change_done self)) eqn:Hnew.
  { intros [= <- _]. simpl. intros H. apply app_one_inj in H. discriminate. }
  intros Hrun Hlog.
  apply (decide_once_tracked_unexpected _ _ _ _ expected declared view) in Hrun;
    [|exact Hlog].
  destruct Hrun as (-> & -> & Hexpected & Hne & li & Hmost & Hcount).
  simpl. repeat (split; [reflexivity|]).
  split; [exact Hexpected|]. split; [exact Hne|].
  exists li. split; [exact Hmost|exact Hcount].
Qed.

(* Beta, Gamma and Delta all declare Gamma:0 where Beta:0 is expected: the
   third vote reaches the final verification, is answered with False, and is
   in the ledger afterwards *)
Lemma unexpected_majority_alters_ledger :
  let self := alpha_two_votes_for_gamma in
  let msg := vote_for "Gamma:0" 0 1 in
  let self' := fst (_processViewChangeDoneMessage msg "Delta"%string self) in
  _processViewChangeDoneMessage msg "Delta"%string self
  = (self', Returned false) /\
  expected_primary_of 0 self = "Beta:0"%string /\
  mostCommonElement (recorded_votes 0 self')
  = Some ("Gamma:0"%string, a_ledger_info) /\
  get_strong_quorum (f self)
  <= count (recorded_votes 0 self') ("Gamma:0"%string, a_ledger_info) /\
  log self'
  = log self ++ [UnexpectedPrimary "Beta:0"%string "Gamma:0"%string 1] /\
  recorded_vote 0 "Delta:0"%string (_view_change_done self) = None /\
  recorded_vote 0 "Delta:0"%string (_view_change_done self')
  = Some ("Gamma:0"%string, a_ledger_info) /\
  _view_change_done self' <> _view_change_done self.
Proof.
  cbv zeta. repeat split; try (vm_compute; reflexivity).
  - vm_compute. discriminate.
  - vm_compute. discriminate.
Qed.

(** C3, as the code has it: a vote that reaches the final verification (it
    is of the current view, passes the anti-flap test, comes from a voter not
    yet recorded, meets a replica without a primary, and with it recorded
    the voters reach the strong quorum, the expected primary is among them
    and the most common pair is counted at least strong-quorum times) while
    the majority's claimed primary is not the expected primary is answered
    with False, and nothing is adopted: every replica's primary, the view
    number, the previous master primary, the node and the sent messages are
    what they were before the call.  The vote ledger is the old one with
    this very vote added, the vote having been recorded before the checks,
    and the disagreement is logged. *)
Theorem unexpected_majority_only_records_vote
    msg sender self replica declared ledger_info :
  let instance_id := ViewChangeDone.instId msg in
  let voter := generateName sender instance_id in
  let tracked :=
    with_view_change_done
      (record_vote instance_id voter
         (ViewChangeDone.name msg, ViewChangeDone.ledgerInfo msg)
         (_view_change_done self)) self in
  let expected := expected_primary_of instance_id self in
  ViewChangeDone.viewNo msg = viewNo self ->
  ~ proposes_previous_master_primary msg self ->
  recorded_vote instance_id voter (_view_change_done self) = None ->
  list_getitem (replicas self) instance_id = Some replica ->
  hasPrimary replica = false ->
  totalNodes (node self) <> 0 ->
  get_strong_quorum (f self)
  <= Z.of_nat (List.length (voters instance_id tracked)) ->
  In expected (voters instance_id tracked) ->
  mostCommonElement (recorded_votes instance_id tracked)
  = Some (declared, ledger_info) ->
  get_strong_quorum (f self)
  <= count (recorded_votes instance_id tracked) (declared, ledger_info) ->
  declared <> expected ->
  exists self',
    _processViewChangeDoneMessage msg sender self = (self', Returned false) /\
    replicas self' = replicas self /\
    viewNo self' = viewNo self /\
    previous_master_primary self' = previous_master_primary self /\
    node self' = node self /\
    sent self' = sent self /\
    _view_change_done self'
    = record_vote instance_id voter
        (ViewChangeDone.name msg, ViewChangeDone.ledgerInfo msg)
        (_view_change_done self) /\
    _view_change_done self' <> _view_change_done self /\
    log self' = log self ++ [UnexpectedPrimary expected declared (viewNo self)].
Proof.
  intros instance_id voter tracked expected Hview Hflap Hnew Hreplica Hprimary
         Htotal Hquorum Hexpected Hmost Hcount Hdeclared.
  rewrite fresh_vote_run by assumption. fold instance_id voter tracked.
  rewrite decide_once_tracked_run. unfold verdict_once_tracked.
  fold instance_id.
  change (replicas tracked) with (replicas self). rewrite Hreplica, Hprimary.
  change (f tracked) with (f self).
  change (expected_primary_of instance_id tracked) with expected.
  destruct (Z.leb_spec (get_strong_quorum (f self))
              (Z.of_nat (List.length (voters instance_id tracked))))
    as [_|Hlt]; [|lia].
  simpl negb. cbv iota.
  change (totalNodes (node tracked)) with (totalNodes (node self)).
  destruct (Z.eqb_spec (totalNodes (node self)) 0); [contradiction|].
  apply (dict_mem_keys String.eqb String.eqb_eq) in Hexpected.
  rewrite Hexpected. simpl negb. cbv iota.
  assert (Hpresent : dict_get Z.eqb instance_id (_view_change_done tracked)
                     <> None).
  { unfold tracked, record_vote. simpl.
    rewrite (dict_get_set_same Z.eqb Z.eqb_eq). discriminate. }
  destruct (dict_get Z.eqb instance_id (_view_change_done tracked));
    [|congruence].
  rewrite Hmost.
  destruct (Z.geb_spec (count (recorded_votes instance_id tracked)
                              (declared, ledger_info))
                       (get_strong_quorum (f self))) as [_|Hlt]; [|lia].
  simpl negb. cbv iota.
  rewrite (eqb_neq_false String.eqb String.eqb_eq) by exact Hdeclared.
  eexists. split; [reflexivity|]. simpl.
  repeat (split; [reflexivity|]).
  split; [|reflexivity].
  now apply record_vote_changes.
Qed.

Lemma unexpected_majority_only_records_vote_witness :
  let self := alpha_two_votes_for_gamma in
  let msg := vote_for "Gamma:0" 0 1 in
  exists self',
    _processViewChangeDoneMessage msg "Delta"%string self
    = (self', Returned false) /\
    replicas self' = replicas self /\
    _view_change_done self'
    = record_vote 0 "Delta:0"%string ("Gamma:0"%string, a_ledger_info)
                  (_view_change_done self).
Proof.
  cbv zeta.
  destruct (unexpected_majority_only_records_vote
              (vote_for "Gamma:0" 0 1) "Delta"%string alpha_two_votes_for_gamma
              (mkReplica None) "Gamma:0"%string a_ledger_info)
    as (self' & Hrun & Hreplicas & _ & _ & _ & _ & Hledger & _).
  - vm_compute. reflexivity.
  - intros [_ H]. vm_compute in H. discriminate.
  - vm_compute. reflexivity.
  - vm_compute. reflexivity.
  - vm_compute. reflexivity.
  - vm_compute. discriminate.
  - vm_compute. discriminate.
  - vm_compute. auto.
  - vm_compute. reflexivity.
  - vm_compute. discriminate.
  - vm_compute. discriminate.
  - exists self'. split; [exact Hrun|]. split; [exact Hreplicas|exact Hledger].
Defined.

(** ** One vote per voter *)

(** C5: once a vote of a sender is recorded for an instance, whatever is
    processed afterwards within the view (votes of any sender and content,
    the node's own selection), a further vote of that sender for that
    instance is answered with False whatever it says, the call leaves the
    vote ledger as it found it, and the entry recorded first is still
    there. *)
Theorem recorded_vote_never_replaced calls msg sender self data :
  let instance_id := ViewChangeDone.instId msg in
  let voter := generateName sender instance_id in
  recorded_vote instance_id voter (_view_change_done self) = Some data ->
  let later := run_calls calls self in
  exists self',
    _processViewChangeDoneMessage msg sender later = (self', Returned false) /\
    _view_change_done self' = _view_change_done later /\
    recorded_vote instance_id voter (_view_change_done self') = Some data.
Proof.
  intros instance_id voter Hrecorded later.
  assert (Hlater : recorded_vote instance_id voter (_view_change_done later)
                   = Some data).
  { eapply ledger_extends_keeps; [apply run_calls_extends|exact Hrecorded]. }
  rewrite processViewChangeDoneMessage_run. cbv zeta.
  fold instance_id voter. rewrite Hlater.
  destruct (negb _); [|destruct (_ && _)];
    (eexists; split; [reflexivity|]; split; [reflexivity|exact Hlater]).
Qed.

Lemma recorded_vote_never_replaced_witness :
  let later :=
    run_calls [ProcessVote (vote_for "Beta:0" 0 1) "Delta"%string;
               StartSelection] alpha_two_votes in
  exists self',
    _processViewChangeDoneMessage (vote_for "Gamma:0" 0 1) "Beta"%string later
    = (self', Returned false) /\
    _view_change_done self' = _view_change_done later /\
    recorded_vote 0 "Beta:0"%string (_view_change_done self')
    = Some ("Beta:0"%string, a_ledger_info).
Proof.
  apply (recorded_vote_never_replaced
           [ProcessVote (vote_for "Beta:0" 0 1) "Delta"%string; StartSelection]
           (vote_for "Gamma:0" 0 1) "Beta"%string alpha_two_votes
           ("Beta:0"%string, a_ledger_info)).
  vm_compute. reflexivity.
Defined.

(** ** The round-robin schedule *)

(** C7: with a node set that is not empty, [_who_is_the_next_primary] returns
    the replica name built for the instance from the name of the node at rank
    (viewNo + instance_id) mod totalNodes, which is the spec's
    [expected_primary]; the call leaves the selector as it was, and two
    selectors with the same view number, node count and rank table get the
    same name. *)
Theorem next_primary_is_round_robin instance_id self :
  totalNodes (node self) <> 0 ->
  _who_is_the_next_primary instance_id self
  = (self,
     Returned (expected_primary (viewNo self) instance_id
                 (totalNodes (node self)) (get_name_by_rank (node self)))) /\
  expected_primary (viewNo self) instance_id (totalNodes (node self))
                   (get_name_by_rank (node self))
  = generateName
      (get_name_by_rank (node self)
         ((viewNo self + instance_id) mod totalNodes (node self)))
      instance_id /\
  forall other,
    viewNo other = viewNo self ->
    totalNodes (node other) = totalNodes (node self) ->
    (forall rank,
       get_name_by_rank (node other) rank = get_name_by_rank (node self) rank)
    ->
    snd (_who_is_the_next_primary instance_id other)
    = snd (_who_is_the_next_primary instance_id self).
Proof.
  intros Htotal. split; [|split].
  - rewrite who_is_the_next_primary_run.
    destruct (Z.eqb_spec (totalNodes (node self)) 0); [contradiction|].
    reflexivity.
  - reflexivity.
  - intros other Hview Hnodes Hranks.
    rewrite !who_is_the_next_primary_run. simpl.
    unfold expected_primary_of, expected_primary.
    now rewrite Hview, Hnodes, Hranks.
Qed.

Lemma next_primary_is_round_robin_witness :
  _who_is_the_next_primary 2 alpha = (alpha, Returned "Delta:2"%string).
Proof.
  apply (proj1 (next_primary_is_round_robin 2 alpha
                  ltac:(vm_compute; discriminate))).
Defined.

(** ** Starting the selection *)

Lemma select_primary_of_calls instance_id replica self :
  totalNodes (node self) <> 0 ->
  exists self',
    select_primary_of instance_id replica self = (self', Returned tt) /\
    totalNodes (node self') = totalNodes (node self) /\
    primary_found_calls (node self')
    = (primary_found_calls (node self)
       + if hasPrimary replica then 0 else 1)%nat.
Proof.
  intros Htotal. unfold select_primary_of, hasPrimary.
  destruct (primaryName replica).
  - exists self. split; [reflexivity|]. split; [reflexivity|lia].
  - unfold bind at 1, get. unfold bind at 1.
    rewrite who_is_the_next_primary_run.
    destruct (Z.eqb_spec (totalNodes (node self)) 0); [contradiction|].
    unfold _send_view_change_done_message. run_py.
    rewrite track_view_change_done_run. simpl.
    destruct (recorded_vote _ _ _); simpl;
      destruct (instance_id =? 0); simpl;
      (eexists; split; [reflexivity|]; split; [reflexivity|simpl; lia]).
Qed.

Lemma for_each_replica_calls rs : forall ids self,
  totalNodes (node self) <> 0 ->
  exists self',
    for_each (fun '(instance_id, replica) =>
                select_primary_of instance_id replica)
             (combine ids rs) self
    = (self', Returned tt) /\
    totalNodes (node self') = totalNodes (node self) /\
    (primary_found_calls (node self')
     <= primary_found_calls (node self) + undecided rs)%nat /\
    (List.length ids = List.length rs ->
     primary_found_calls (node self')
     = (primary_found_calls (node self) + undecided rs)%nat).
Proof.
  induction rs as [|r rs IH]; intros ids self Htotal.
  - exists self. rewrite combine_nil. simpl.
    repeat split; unfold undecided; simpl; lia.
  - destruct ids as [|i ids].
    + exists self. simpl. split; [reflexivity|]. split; [reflexivity|].
      split; [lia|discriminate].
    + simpl. unfold bind.
      destruct (select_primary_of_calls i r self Htotal)
        as (self1 & -> & Htotal1 & Hcalls1).
      destruct (IH ids self1) as (self2 & -> & Htotal2 & Hle & Hcalls2);
        [congruence|].
      exists self2. split; [reflexivity|].
      assert (Hun : undecided (r :: rs)
                    = ((if hasPrimary r then 0 else 1) + undecided rs)%nat).
      { unfold undecided. simpl. now destruct (hasPrimary r). }
      split; [congruence|]. split; [lia|].
      intros [= Hlen]. specialize (Hcalls2 Hlen). lia.
Qed.

(* two replicas without a primary: primary_found is called for each *)
Lemma primary_found_called_per_instance :
  primary_found_calls (node alpha) = 0%nat /\
  undecided (replicas alpha) = 2%nat /\
  exists self',
    _startSelection alpha = (self', Returned tt) /\
    map primaryName (replicas self')
    = [Some "Beta:0"%string; Some "Gamma:1"%string] /\
    primary_found_calls (node self') = 2%nat.
Proof.
  split; [reflexivity|]. split; [reflexivity|].
  exists (fst (_startSelection alpha)).
  split; [vm_compute; reflexivity|].
  split; vm_compute; reflexivity.
Qed.

(** C9, as the code has it: with a node set that is not empty, [_startSelection] calls
    the node's [primary_found] once for every instance whose replica had no
    primary (each of them is given its primary in that turn of the loop), so
    as many times as there were such instances, and
    [_processViewChangeDoneMessage] never calls it. *)
Theorem primary_found_once_per_selected_instance self :
  totalNodes (node self) <> 0 ->
  (exists self',
     _startSelection self = (self', Returned tt) /\
     primary_found_calls (node self')
     = (primary_found_calls (node self) + undecided (replicas self))%nat) /\
  (forall msg sender,
     primary_found_calls
       (node (fst (_processViewChangeDoneMessage msg sender self)))
     = primary_found_calls (node self)).
Proof.
  intros Htotal. split.
  - unfold _startSelection, bind, get, enumerate.
    destruct (for_each_replica_calls (replicas self)
                (map Z.of_nat (seq 0 (List.length (replicas self)))) self
                Htotal)
      as (self' & Hrun & _ & _ & Hcalls).
    exists self'. split; [exact Hrun|].
    apply Hcalls. now rewrite length_map, length_seq.
  - intros msg sender. rewrite processViewChangeDoneMessage_run. cbv zeta.
    destruct (negb _); [reflexivity|].
    destruct (_ && _); [reflexivity|].
    destruct (recorded_vote _ _ _); [reflexivity|].
    destruct (decide_once_tracked_frame msg
                (with_view_change_done
                   (record_vote (ViewChangeDone.instId msg)
                      (generateName sender (ViewChangeDone.instId msg))
                      (ViewChangeDone.name msg, ViewChangeDone.ledgerInfo msg)
                      (_view_change_done self)) self)) as [entries ->].
    reflexivity.
Qed.

Lemma primary_found_once_per_selected_instance_witness :
  exists self',
    _startSelection alpha_two_votes = (self', Returned tt) /\
    primary_found_calls (node self')
    = (primary_found_calls (node alpha_two_votes)
       + undecided (replicas alpha_two_votes))%nat.
Proof.
  apply (proj1 (primary_found_once_per_selected_instance alpha_two_votes
                  ltac:(vm_compute; discriminate))).
Defined.

(** ** Messages for lagged nodes *)

(* the messages built from the entries of a ledger *)
Lemma lagged_msgs_of_absent_instance own view instance_id
    (ledger : VoteLedger) :
  ~ In instance_id (dict_keys ledger) ->
  filter (fun m => ViewChangeDone.instId m =? instance_id)
    (flat_map
       (fun '(i, replica_messages) =>
          match dict_get String.eqb (generateName own i) replica_messages with
          | Some (new_primary_replica_name, ledger_info) =>
              [ViewChangeDone.make new_primary_replica_name i view ledger_info]
          | None => []
          end) ledger)
  = [].
Proof.
  induction ledger as [|[i m] ledger IH]; simpl; [reflexivity|].
  intros Hnotin. rewrite filter_app, IH by tauto.
  rewrite app_nil_r.
  match goal with
    | |- context [match ?own_vote with _ => _ end] =>
        destruct own_vote as [[p li]|]
    end;
    [|reflexivity].
  simpl. destruct (Z.eqb_spec i instance_id); [|reflexivity].
  exfalso. apply Hnotin. now left.
Qed.

(** C8: [get_msgs_for_lagged_nodes] returns, for every instance for which
    the node's own vote is recorded, exactly one ViewChangeDone message: it
    carries the claimed primary and the ledger info of that vote, the
    instance id and the node's current view number; for an instance without
    a recorded vote of the node it returns no message. *)
Theorem lagged_nodes_get_own_votes instance_id self :
  NoDup (dict_keys (_view_change_done self)) ->
  filter (fun m => ViewChangeDone.instId m =? instance_id)
         (get_msgs_for_lagged_nodes self)
  = match recorded_vote instance_id (generateName (name self) instance_id)
                        (_view_change_done self) with
    | Some (new_primary_replica_name, ledger_info) =>
        [ViewChangeDone.make new_primary_replica_name instance_id
                             (viewNo self) ledger_info]
    | None => []
    end.
Proof.
  unfold get_msgs_for_lagged_nodes, recorded_vote.
  induction (_view_change_done self) as [|[i m] ledger IH]; simpl;
    [reflexivity|].
  intros Hnodup. inversion Hnodup as [|? ? Hnotin Hnodup']; subst.
  rewrite filter_app.
  destruct (Z.eqb_spec instance_id i) as [->|Hne].
  - rewrite lagged_msgs_of_absent_instance by exact Hnotin.
    rewrite app_nil_r. unfold VoteData, ReplicaName in *.
    destruct (dict_get String.eqb (generateName (name self) i) m)
      as [[p li]|]; simpl; [|reflexivity].
    now rewrite Z.eqb_refl.
  - rewrite IH by exact Hnodup'.
    match goal with
    | |- context [match ?own_vote with _ => _ end] =>
        destruct own_vote as [[p li]|]
    end; [|reflexivity].
    simpl. destruct (Z.eqb_spec i instance_id); [congruence|reflexivity].
Qed.

Lemma lagged_nodes_get_own_votes_witness :
  let selected := fst (_startSelection alpha_two_votes) in
  filter (fun m => ViewChangeDone.instId m =? 1)
         (get_msgs_for_lagged_nodes selected)
  = [ViewChangeDone.make "Gamma:1"%string 1 1 a_ledger_info].
Proof.
  cbv zeta.
  rewrite (lagged_nodes_get_own_votes 1 (fst (_startSelection alpha_two_votes))).
  - vm_compute. reflexivity.
  - vm_compute. repeat constructor; simpl; intuition discriminate.
Defined.

(** ** A new view *)

Lemma decide_once_tracked_not_duplicate msg self other :
  log (fst (decide_once_tracked msg self))
  <> log self ++ [Discarded other AlreadyMarkedDone].
Proof.
  rewrite decide_once_tracked_run. unfold verdict_once_tracked.
  repeat match goal with
         | |- context [match ?x with _ => _ end] => destruct x
         end;
    simpl; intros H;
    solve [ symmetry in H; now apply app_one_neq in H
          | apply app_one_inj in H; discriminate ].
Qed.

(** C6: when [view_change_started] runs for a view the base class accepts as
    new, every instance's voter mapping in the ledger is empty afterwards, and
    no vote that comes next is taken for a duplicate, whoever sends it and
    whatever was recorded before the reset: [_track_view_change_done] accepts
    and records it, [_processViewChangeDoneMessage] does not discard it as
    already marked, and when it carries the current view number and passes
    the anti-flap test it is recorded as its sender's vote. *)
Theorem new_view_forgets_votes
    (PrimaryDecider_view_change_started : Z -> M bool)
    new_view self started :
  PrimaryDecider_view_change_started new_view self
  = (started, Returned true) ->
  exists reset,
    view_change_started PrimaryDecider_view_change_started new_view self
    = (reset, Returned tt) /\
    (forall instance_id declarations,
       In (instance_id, declarations) (_view_change_done reset) ->
       declarations = []) /\
    (forall instance_id voter new_primary ledger_info,
       _track_view_change_done instance_id voter new_primary ledger_info reset
       = (with_view_change_done
            (record_vote instance_id voter (new_primary, ledger_info)
                         (_view_change_done reset)) reset,
          Returned true)) /\
    (forall msg sender,
       log (fst (_processViewChangeDoneMessage msg sender reset))
       <> log reset ++ [Discarded msg AlreadyMarkedDone]) /\
    (forall msg sender,
       ViewChangeDone.viewNo msg = viewNo reset ->
       ~ proposes_previous_master_primary msg reset ->
       recorded_vote (ViewChangeDone.instId msg)
         (generateName sender (ViewChangeDone.instId msg))
         (_view_change_done
            (fst (_processViewChangeDoneMessage msg sender reset)))
       = Some (ViewChangeDone.name msg, ViewChangeDone.ledgerInfo msg)).
Proof.
  intros Hstarted.
  unfold view_change_started, bind. rewrite Hstarted. run_py.
  eexists. split; [reflexivity|].
  assert (Hempty : forall instance_id declarations,
            In (instance_id, declarations)
               (map (fun '(i, _) => (i, @nil (ReplicaName * VoteData)))
                    (_view_change_done started)) ->
            declarations = []).
  { intros i m Hin. apply in_map_iff in Hin as [[i' m'] [[= _ <-] _]].
    reflexivity. }
  assert (Hnone : forall instance_id voter,
            recorded_vote instance_id voter
              (map (fun '(i, _) => (i, @nil (ReplicaName * VoteData)))
                   (_view_change_done started)) = None).
  { intros i s. unfold recorded_vote.
    destruct (dict_get Z.eqb i _) as [m|] eqn:E; [|reflexivity].
    apply (dict_get_In Z.eqb Z.eqb_eq) in E. apply Hempty in E.
    now subst m. }
  split; [exact Hempty|]. split; [|split].
  - intros i s p li. rewrite track_view_change_done_run.
    simpl (_view_change_done _). now rewrite Hnone.
  - intros msg sender. rewrite processViewChangeDoneMessage_run. cbv zeta.
    destruct (negb _);
      [simpl; intros H; apply app_one_inj in H; discriminate|].
    destruct (_ && _);
      [simpl; intros H; apply app_one_inj in H; discriminate|].
    simpl (_view_change_done _). rewrite Hnone.
    match goal with
    | |- log (fst (decide_once_tracked ?m ?tracked)) <> _ =>
        exact (decide_once_tracked_not_duplicate m tracked msg)
    end.
  - intros msg sender Hview Hflap.
    rewrite fresh_vote_run; [|exact Hview|exact Hflap|apply Hnone].
    rewrite decide_once_tracked_ledger. simpl.
    apply recorded_vote_record_same.
Qed.

Lemma new_view_forgets_votes_witness :
  let reset :=
    fst (view_change_started decider_view_change_started 2 alpha_two_votes) in
  (forall instance_id declarations,
     In (instance_id, declarations) (_view_change_done reset) ->
     declarations = []) /\
  recorded_vote 0 "Beta:0"%string
    (_view_change_done
       (fst (_processViewChangeDoneMessage (vote_for "Beta:0" 0 2)
                                           "Beta"%string reset)))
  = Some ("Beta:0"%string, a_ledger_info).
Proof.
  cbv zeta.
  destruct (new_view_forgets_votes decider_view_change_started 2
              alpha_two_votes
              (fst (decider_view_change_started 2 alpha_two_votes)))
    as (reset & Hrun & Hempty & _ & _ & Hrecorded).
  - vm_compute. reflexivity.
  - assert (Hreset : reset
                     = fst (view_change_started decider_view_change_started 2
                                                alpha_two_votes))
      by (rewrite Hrun; reflexivity).
    rewrite <- Hreset. split; [exact Hempty|].
    apply (Hrecorded (vote_for "Beta:0" 0 2) "Beta"%string).
    + rewrite Hreset. vm_compute. reflexivity.
    + rewrite Hreset. intros [_ H]. vm_compute in H. discriminate.
Defined.

Lemma fresh_vote_recorded_before_checks_witness :
  let decided := run_calls [StartSelection] alpha_two_votes in
  exists self',
    _processViewChangeDoneMessage (vote_for "Beta:0" 0 1) "Delta"%string decided
    = (self', Returned false) /\
    recorded_vote 0 "Delta:0"%string (_view_change_done decided) = None /\
    recorded_vote 0 "Delta:0"%string (_view_change_done self')
    = Some ("Beta:0"%string, a_ledger_info).
Proof.
  cbv zeta.
  pose proof (fresh_vote_recorded_before_checks
                (vote_for "Beta:0" 0 1) "Delta"%string
                (run_calls [StartSelection] alpha_two_votes)) as H.
  cbv zeta in H.
  destruct H as (self' & r & Hrun & _ & Hrecorded & _ & Hfalse).
  - vm_compute. reflexivity.
  - intros [_ H]. vm_compute in H. discriminate.
  - vm_compute. reflexivity.
  - exists self'. rewrite Hrun. split; [|split].
    + f_equal. apply (Hfalse (mkReplica (Some "Beta:0"%string))).
      * vm_compute. reflexivity.
      * left. reflexivity.
    + vm_compute. reflexivity.
    + exact Hrecorded.
Defined.

(** * More of the selector *)

(** ** The turns of the selection loop *)

Lemma select_primary_of_run instance_id replica self :
  totalNodes (node self) <> 0 ->
  select_primary_of instance_id replica self
  = (if hasPrimary replica then self else selected instance_id self,
     Returned tt).
Proof.
  intros Htotal. unfold select_primary_of, hasPrimary.
  destruct (primaryName replica); [reflexivity|].
  unfold bind at 1, get. unfold bind at 1.
  rewrite who_is_the_next_primary_run.
  destruct (Z.eqb_spec (totalNodes (node self)) 0); [contradiction|].
  unfold _send_view_change_done_message. run_py.
  rewrite track_view_change_done_run. unfold selected. simpl.
  destruct (recorded_vote _ _ _); simpl;
    destruct (instance_id =? 0); reflexivity.
Qed.

Lemma selected_totalNodes instance_id self :
  totalNodes (node (selected instance_id self)) = totalNodes (node self).
Proof. reflexivity. Qed.

Lemma for_each_replica_run rs : forall k self,
  totalNodes (node self) <> 0 ->
  for_each (fun '(instance_id, replica) =>
              select_primary_of instance_id replica)
           (combine (map Z.of_nat (seq k (List.length rs))) rs) self
  = (selection_from k rs self, Returned tt).
Proof.
  induction rs as [|r rs IH]; intros k self Htotal; [reflexivity|].
  simpl. unfold bind. rewrite select_primary_of_run by exact Htotal.
  apply IH. now destruct (hasPrimary r).
Qed.

Lemma startSelection_run self :
  totalNodes (node self) <> 0 ->
  _startSelection self = (selection_from 0 (replicas self) self, Returned tt).
Proof.
  intros Htotal. unfold _startSelection, bind, get, enumerate.
  now apply for_each_replica_run.
Qed.

Lemma same_view_refl self : same_view self self.
Proof. unfold same_view. repeat split; constructor. Qed.

Lemma same_view_trans s1 s2 s3 :
  same_view s1 s2 -> same_view s2 s3 -> same_view s1 s3.
Proof.
  unfold same_view.
  intros (A1 & A2 & A3 & A4 & A5 & A6 & A7) (B1 & B2 & B3 & B4 & B5 & B6 & B7).
  repeat split; try congruence.
  eapply ledger_extends_trans; eassumption.
Qed.

Lemma same_view_expected instance_id self self' :
  same_view self self' ->
  expected_primary_of instance_id self' = expected_primary_of instance_id self.
Proof.
  intros (_ & Hview & _ & _ & Htotal & Hranks & _).
  unfold expected_primary_of. now rewrite Hview, Htotal, Hranks.
Qed.

Lemma selected_same_view instance_id self :
  same_view self (selected instance_id self).
Proof.
  unfold same_view, selected. simpl. repeat split.
  destruct (recorded_vote _ _ _) eqn:E; [constructor|].
  apply extends_record; [constructor|exact E].
Qed.

Lemma selection_from_same_view rs : forall k self,
  same_view self (selection_from k rs self).
Proof.
  induction rs as [|r rs IH]; intros k self; simpl; [apply same_view_refl|].
  eapply same_view_trans; [|apply IH].
  destruct (hasPrimary r); [apply same_view_refl|apply selected_same_view].
Qed.

Lemma selection_from_log rs : forall k self,
  log (selection_from k rs self) = log self.
Proof.
  induction rs as [|r rs IH]; intros k self; simpl; [reflexivity|].
  rewrite IH. now destruct (hasPrimary r).
Qed.

Lemma list_update_app {A : Type} (pre : list A) x y rest :
  list_update (List.length pre) x (pre ++ y :: rest) = pre ++ x :: rest.
Proof. induction pre as [|a pre IH]; simpl; [reflexivity|now rewrite IH]. Qed.

Lemma selection_from_replicas rs : forall k self pre,
  replicas self = pre ++ rs -> List.length pre = k ->
  replicas (selection_from k rs self)
  = pre ++ assigned (fun i => expected_primary_of i self) k rs.
Proof.
  induction rs as [|r rs IH]; intros k self pre Hreplicas Hlen; simpl.
  - exact Hreplicas.
  - destruct (hasPrimary r) eqn:Hr.
    + rewrite (IH (S k) self (pre ++ [r])).
      * now rewrite <- app_assoc.
      * now rewrite <- app_assoc.
      * rewrite length_app. simpl. lia.
    + rewrite (IH (S k) (selected (Z.of_nat k) self)
                  (pre ++ [mkReplica
                             (Some (expected_primary_of (Z.of_nat k) self))])).
      * rewrite <- app_assoc. reflexivity.
      * unfold selected. simpl. rewrite Hreplicas, Nat2Z.id, <- Hlen.
        rewrite list_update_app. now rewrite <- app_assoc.
      * rewrite length_app. simpl. lia.
Qed.

Lemma assigned_nth expected rs : forall k n,
  nth_error (assigned expected k rs) n
  = match nth_error rs n with
    | Some r =>
        Some (if hasPrimary r then r
              else mkReplica (Some (expected (Z.of_nat (k + n)))))
    | None => None
    end.
Proof.
  induction rs as [|r rs IH]; intros k n; simpl.
  - now destruct n.
  - destruct n as [|n]; simpl.
    + now rewrite Nat.add_0_r.
    + rewrite IH. now replace (S k + n)%nat with (k + S n)%nat by lia.
Qed.

Lemma assigned_decided expected rs : forall k,
  forallb hasPrimary (assigned expected k rs) = true.
Proof.
  induction rs as [|r rs IH]; intros k; simpl; [reflexivity|].
  rewrite IH. destruct (hasPrimary r) eqn:Hr; [now rewrite Hr|reflexivity].
Qed.

Lemma selection_from_decided rs : forall k self,
  forallb hasPrimary rs = true -> selection_from k rs self = self.
Proof.
  induction rs as [|r rs IH]; intros k self; simpl; [reflexivity|].
  intros H. apply andb_prop in H as [Hr Hrs]. rewrite Hr. now apply IH.
Qed.

Lemma selection_from_sent rs : forall k self,
  sent (selection_from k rs self)
  = sent self
    ++ own_votes (fun i => expected_primary_of i self) (viewNo self)
                 (ledger_info self) k rs.
Proof.
  induction rs as [|r rs IH]; intros k self; simpl.
  - now rewrite app_nil_r.
  - rewrite IH. destruct (hasPrimary r); [reflexivity|].
    unfold selected at 1. simpl. rewrite <- app_assoc. reflexivity.
Qed.

Lemma selection_from_previous_master_primary rs : forall k self,
  (0 < k)%nat ->
  previous_master_primary (selection_from k rs self)
  = previous_master_primary self.
Proof.
  induction rs as [|r rs IH]; intros k self Hk; simpl; [reflexivity|].
  rewrite IH by lia. destruct (hasPrimary r); [reflexivity|].
  unfold selected. simpl.
  destruct (Z.eqb_spec (Z.of_nat k) 0); [lia|reflexivity].
Qed.

Lemma selected_own_vote instance_id self :
  let own := generateName (name self) instance_id in
  recorded_vote instance_id own
                (_view_change_done (selected instance_id self))
  = Some (match recorded_vote instance_id own (_view_change_done self) with
          | Some data => data
          | None => (expected_primary_of instance_id self, ledger_info self)
          end).
Proof.
  unfold selected. simpl.
  destruct (recorded_vote _ _ (_view_change_done self)) eqn:E; [exact E|].
  apply recorded_vote_record_same.
Qed.

Lemma selected_other_votes instance_id self i voter :
  i <> instance_id ->
  recorded_vote i voter (_view_change_done (selected instance_id self))
  = recorded_vote i voter (_view_change_done self).
Proof.
  intros Hne. unfold selected. simpl.
  destruct (recorded_vote instance_id _ (_view_change_done self));
    [reflexivity|].
  apply recorded_vote_record_other. intros [= -> _]. now apply Hne.
Qed.

Lemma selection_from_own_vote rs : forall k self n r,
  nth_error rs n = Some r -> hasPrimary r = false ->
  let instance_id := Z.of_nat (k + n) in
  let own := generateName (name self) instance_id in
  recorded_vote instance_id own
                (_view_change_done (selection_from k rs self))
  = Some (match recorded_vote instance_id own (_view_change_done self) with
          | Some data => data
          | None => (expected_primary_of instance_id self, ledger_info self)
          end).
Proof.
  induction rs as [|r0 rs IH]; intros k self n r Hnth Hr; [now destruct n|].
  destruct n as [|n]; simpl in Hnth.
  - injection Hnth as ->. cbv zeta. rewrite Nat.add_0_r. simpl. rewrite Hr.
    destruct (selection_from_same_view rs (S k) (selected (Z.of_nat k) self))
      as (_ & _ & _ & _ & _ & _ & Hext).
    eapply ledger_extends_keeps; [exact Hext|].
    apply selected_own_vote.
  - cbv zeta. replace (k + S n)%nat with (S k + n)%nat by lia. simpl.
    pose proof (IH (S k)
                  (if hasPrimary r0 then self else selected (Z.of_nat k) self)
                  n r Hnth Hr) as H.
    cbv zeta in H.
    destruct (hasPrimary r0); [exact H|].
    rewrite selected_other_votes in H by lia. exact H.
Qed.

Lemma selected_lagged_msgs instance_id self :
  dict_get Z.eqb instance_id (_view_change_done self) = None ->
  get_msgs_for_lagged_nodes (selected instance_id self)
  = get_msgs_for_lagged_nodes self
    ++ [ViewChangeDone.make (expected_primary_of instance_id self) instance_id
                            (viewNo self) (ledger_info self)].
Proof.
  intros Hnone. unfold get_msgs_for_lagged_nodes, selected, recorded_vote,
    record_vote. simpl. rewrite Hnone.
  rewrite (dict_set_fresh Z.eqb) by exact Hnone.
  rewrite flat_map_app. simpl. now rewrite String.eqb_refl.
Qed.

Lemma selected_absent instance_id self j :
  j <> instance_id ->
  dict_get Z.eqb j (_view_change_done (selected instance_id self))
  = dict_get Z.eqb j (_view_change_done self).
Proof.
  intros Hne. unfold selected. simpl.
  destruct (recorded_vote _ _ _); [reflexivity|].
  unfold record_vote. apply (dict_get_set_other Z.eqb Z.eqb_eq). congruence.
Qed.

Lemma selection_from_lagged_msgs rs : forall k self,
  (forall j, Z.of_nat k <= j ->
             dict_get Z.eqb j (_view_change_done self) = None) ->
  get_msgs_for_lagged_nodes (selection_from k rs self)
  = get_msgs_for_lagged_nodes self
    ++ own_votes (fun i => expected_primary_of i self) (viewNo self)
                 (ledger_info self) k rs.
Proof.
  induction rs as [|r rs IH]; intros k self Habsent; simpl.
  - now rewrite app_nil_r.
  - destruct (hasPrimary r).
    + apply IH. intros j Hj. apply Habsent. lia.
    + rewrite IH.
      * rewrite selected_lagged_msgs by (apply Habsent; lia).
        rewrite <- app_assoc. reflexivity.
      * intros j Hj. rewrite selected_absent by lia. apply Habsent. lia.
Qed.

Lemma select_primary_of_decided instance_id replica self :
  hasPrimary replica = true ->
  select_primary_of instance_id replica self = (self, Returned tt).
Proof.
  unfold select_primary_of, hasPrimary.
  destruct (primaryName replica); [reflexivity|discriminate].
Qed.

(* without nodes the loop stops at the first replica that has no primary *)
Lemma for_each_replica_no_nodes rs : forall ids self,
  totalNodes (node self) = 0 ->
  List.length ids = List.length rs ->
  for_each (fun '(instance_id, replica) =>
              select_primary_of instance_id replica)
           (combine ids rs) self
  = (self,
     if forallb hasPrimary rs then Returned tt else Raised ZeroDivisionError).
Proof.
  induction rs as [|r rs IH]; intros ids self Htotal Hlen.
  - now rewrite combine_nil.
  - destruct ids as [|i ids]; [discriminate|]. simpl. unfold bind.
    destruct (hasPrimary r) eqn:Hr.
    + rewrite select_primary_of_decided by exact Hr. simpl.
      apply IH; [exact Htotal|now injection Hlen].
    + unfold select_primary_of, hasPrimary in *.
      destruct (primaryName r); [discriminate|].
      unfold bind, get. rewrite who_is_the_next_primary_run, Htotal.
      reflexivity.
Qed.

Lemma duplicate_vote_run msg sender self data :
  recorded_vote (ViewChangeDone.instId msg)
                (generateName sender (ViewChangeDone.instId msg))
                (_view_change_done self) = Some data ->
  exists self',
    _processViewChangeDoneMessage msg sender self = (self', Returned false) /\
    _view_change_done self' = _view_change_done self.
Proof.
  intros Hrecorded. rewrite processViewChangeDoneMessage_run. cbv zeta.
  rewrite Hrecorded.
  destruct (negb _); [|destruct (_ && _)];
    (eexists; split; reflexivity).
Qed.

(** ** Starting the selection, turn by turn *)

(** X1: with a node set that is not empty, [_startSelection] returns and
    leaves every replica with a primary: a replica that had one keeps it, a
    replica that had none gets the expected primary of its instance.  The
    previous master primary is forgotten exactly when the master replica
    (instance 0) had no primary.  No message is discarded and no error is
    logged: [self.discard] and [logger.error] are not called (the debug and
    display lines of the loop are not entries of [log]). *)
Theorem startSelection_gives_every_replica_a_primary self :
  totalNodes (node self) <> 0 ->
  exists self',
    _startSelection self = (self', Returned tt) /\
    (forall n,
       nth_error (replicas self') n
       = match nth_error (replicas self) n with
         | Some r =>
             Some (if hasPrimary r then r
                   else mkReplica
                          (Some (expected_primary_of (Z.of_nat n) self)))
         | None => None
         end) /\
    forallb hasPrimary (replicas self') = true /\
    previous_master_primary self'
    = match replicas self with
      | r :: _ => if hasPrimary r then previous_master_primary self else None
      | [] => previous_master_primary self
      end /\
    log self' = log self.
Proof.
  intros Htotal. exists (selection_from 0 (replicas self) self).
  split; [now apply startSelection_run|].
  pose proof (selection_from_replicas (replicas self) 0%nat self []
                eq_refl eq_refl) as Hreplicas.
  simpl in Hreplicas. rewrite Hreplicas.
  split; [intros n; now rewrite assigned_nth|].
  split; [apply assigned_decided|].
  split; [|apply selection_from_log].
  destruct (replicas self) as [|r rs]; [reflexivity|]. simpl.
  rewrite selection_from_previous_master_primary by lia.
  now destruct (hasPrimary r).
Qed.

Lemma startSelection_gives_every_replica_a_primary_witness :
  exists self',
    _startSelection alpha_two_votes = (self', Returned tt) /\
    map primaryName (replicas self')
    = [Some "Beta:0"%string; Some "Gamma:1"%string] /\
    previous_master_primary self' = None.
Proof.
  destruct (startSelection_gives_every_replica_a_primary alpha_two_votes)
    as (self' & Hrun & _ & _ & Hprevious & _).
  - vm_compute. discriminate.
  - exists self'. split; [exact Hrun|].
    assert (Hself : self' = fst (_startSelection alpha_two_votes))
      by (rewrite Hrun; reflexivity).
    split; [rewrite Hself; vm_compute; reflexivity|].
    rewrite Hprevious. reflexivity.
Defined.

(** X2: with a node set that is not empty, [_startSelection] sends one
    ViewChangeDone message for every replica that had no primary, in the
    order of the instances, and none for the others; each names the expected
    primary of its instance and carries the instance id, the current view
    number and the node's ledger summaries. *)
Theorem startSelection_sends_one_vote_per_undecided_replica self :
  totalNodes (node self) <> 0 ->
  exists self',
    _startSelection self = (self', Returned tt) /\
    sent self'
    = sent self
      ++ own_votes (fun i => expected_primary_of i self) (viewNo self)
                   (ledger_info self) 0 (replicas self).
Proof.
  intros Htotal. exists (selection_from 0 (replicas self) self).
  split; [now apply startSelection_run|apply selection_from_sent].
Qed.

Lemma startSelection_sends_one_vote_per_undecided_replica_witness :
  exists self',
    _startSelection alpha_two_votes = (self', Returned tt) /\
    sent self' = [vote_for "Beta:0" 0 1; vote_for "Gamma:1" 1 1].
Proof.
  destruct (startSelection_sends_one_vote_per_undecided_replica
              alpha_two_votes)
    as (self' & Hrun & Hsent).
  - vm_compute. discriminate.
  - exists self'. split; [exact Hrun|]. rewrite Hsent.
    vm_compute. reflexivity.
Defined.

(** X3: with a node set that is not empty, after [_startSelection] the node
    has a vote of its own on record for every instance whose replica had no
    primary: the vote it had there before, if any (the new one is then
    dropped), and else a vote for the expected primary with the node's
    ledger summaries. *)
Theorem startSelection_records_own_votes self n r :
  totalNodes (node self) <> 0 ->
  nth_error (replicas self) n = Some r ->
  hasPrimary r = false ->
  let instance_id := Z.of_nat n in
  let own := generateName (name self) instance_id in
  exists self',
    _startSelection self = (self', Returned tt) /\
    recorded_vote instance_id own (_view_change_done self')
    = Some (match recorded_vote instance_id own (_view_change_done self) with
            | Some data => data
            | None => (expected_primary_of instance_id self, ledger_info self)
            end).
Proof.
  intros Htotal Hnth Hr. cbv zeta.
  exists (selection_from 0 (replicas self) self).
  split; [now apply startSelection_run|].
  exact (selection_from_own_vote (replicas self) 0%nat self n r Hnth Hr).
Qed.

Lemma startSelection_records_own_votes_witness :
  exists self',
    _startSelection alpha_two_votes = (self', Returned tt) /\
    recorded_vote 1 "Alpha:1"%string (_view_change_done self')
    = Some ("Gamma:1"%string, a_ledger_info).
Proof.
  exact (startSelection_records_own_votes alpha_two_votes 1%nat
           (mkReplica None) ltac:(vm_compute; discriminate) eq_refl eq_refl).
Defined.

(** X4: with a node set that is not empty, a second [_startSelection] right
    after the first changes nothing: it sends nothing, records nothing and
    does not call the node again. *)
Theorem startSelection_twice self :
  totalNodes (node self) <> 0 ->
  exists self',
    _startSelection self = (self', Returned tt) /\
    _startSelection self' = (self', Returned tt).
Proof.
  intros Htotal. exists (selection_from 0 (replicas self) self).
  split; [now apply startSelection_run|].
  set (self' := selection_from 0 (replicas self) self).
  assert (Hdecided : forallb hasPrimary (replicas self') = true).
  { unfold self'.
    rewrite (selection_from_replicas (replicas self) 0%nat self []
               eq_refl eq_refl).
    apply assigned_decided. }
  rewrite startSelection_run.
  - now rewrite selection_from_decided.
  - destruct (selection_from_same_view (replicas self) 0%nat self)
      as (_ & _ & _ & _ & Hnodes & _).
    fold self' in Hnodes. congruence.
Qed.

Lemma startSelection_twice_witness :
  exists self',
    _startSelection alpha_two_votes = (self', Returned tt) /\
    _startSelection self' = (self', Returned tt).
Proof.
  apply (startSelection_twice alpha_two_votes). vm_compute. discriminate.
Defined.

(** X5: when the node counts no nodes (totalNodes is 0), [_startSelection]
    raises ZeroDivisionError as soon as a replica has no primary, and returns
    when every replica has one; either way the selector is left exactly as it
    was: nothing is sent, recorded or adopted. *)
Theorem startSelection_without_nodes self :
  totalNodes (node self) = 0 ->
  _startSelection self
  = (self,
     if forallb hasPrimary (replicas self) then Returned tt
     else Raised ZeroDivisionError).
Proof.
  intros Htotal. unfold _startSelection, bind, get, enumerate.
  apply for_each_replica_no_nodes; [exact Htotal|].
  now rewrite length_map, length_seq.
Qed.

Lemma startSelection_without_nodes_witness :
  let lonely := with_node (mkNode 0 ranks 0) alpha in
  _startSelection lonely = (lonely, Raised ZeroDivisionError).
Proof.
  exact (startSelection_without_nodes (with_node (mkNode 0 ranks 0) alpha)
           eq_refl).
Defined.

(** X6: on a selector whose vote ledger is empty (as the constructor leaves
    it) and with a node set that is not empty, what
    [get_msgs_for_lagged_nodes] returns after [_startSelection] is exactly
    the list of messages that [_startSelection] sent, in the same order. *)
Theorem lagged_nodes_get_what_was_sent self :
  _view_change_done self = [] ->
  totalNodes (node self) <> 0 ->
  exists self',
    _startSelection self = (self', Returned tt) /\
    sent self' = sent self ++ get_msgs_for_lagged_nodes self'.
Proof.
  intros Hempty Htotal. exists (selection_from 0 (replicas self) self).
  split; [now apply startSelection_run|].
  rewrite selection_from_sent, selection_from_lagged_msgs.
  - unfold get_msgs_for_lagged_nodes at 1. now rewrite Hempty.
  - intros j _. now rewrite Hempty.
Qed.

Lemma lagged_nodes_get_what_was_sent_witness :
  exists self',
    _startSelection alpha = (self', Returned tt) /\
    sent self' = sent alpha ++ get_msgs_for_lagged_nodes self'.
Proof.
  apply (lagged_nodes_get_what_was_sent alpha eq_refl).
  vm_compute. discriminate.
Defined.

(** X7: with a node set that is not empty, once [_startSelection] has run,
    a ViewChangeDone message that comes in under the node's own name for an
    instance whose replica had no primary is answered with False, whatever
    it says, and leaves the vote ledger as it is: the node's vote is not
    counted twice. *)
Theorem own_vote_not_counted_twice self n r msg :
  totalNodes (node self) <> 0 ->
  nth_error (replicas self) n = Some r ->
  hasPrimary r = false ->
  ViewChangeDone.instId msg = Z.of_nat n ->
  exists selected_self self',
    _startSelection self = (selected_self, Returned tt) /\
    _processViewChangeDoneMessage msg (name self) selected_self
    = (self', Returned false) /\
    _view_change_done self' = _view_change_done selected_self.
Proof.
  intros Htotal Hnth Hr Hinstance.
  exists (selection_from 0 (replicas self) self).
  pose proof (selection_from_own_vote (replicas self) 0%nat self n r Hnth Hr)
    as Hown.
  cbv zeta in Hown. simpl (0 + n)%nat in Hown. rewrite <- Hinstance in Hown.
  destruct (duplicate_vote_run msg (name self) _ _ Hown) as (self' & Hrun & Hl).
  exists self'. split; [now apply startSelection_run|].
  split; [exact Hrun|exact Hl].
Qed.

Lemma own_vote_not_counted_twice_witness :
  exists selected_self self',
    _startSelection alpha_two_votes = (selected_self, Returned tt) /\
    _processViewChangeDoneMessage (vote_for "Delta:1" 1 1) "Alpha"%string
                                  selected_self
    = (self', Returned false) /\
    _view_change_done self' = _view_change_done selected_self.
Proof.
  exact (own_vote_not_counted_twice alpha_two_votes 1%nat (mkReplica None)
           (vote_for "Delta:1" 1 1) ltac:(vm_compute; discriminate)
           eq_refl eq_refl eq_refl).
Defined.

(** ** What processing a vote touches, raises and needs *)

Lemma decide_once_tracked_one_entry msg self :
  exists entries,
    fst (decide_once_tracked msg self) = with_log (log self ++ entries) self /\
    (List.length entries <= 1)%nat.
Proof.
  rewrite decide_once_tracked_run. unfold verdict_once_tracked.
  assert (Hsame : self = with_log (log self ++ []) self)
    by (rewrite app_nil_r; now destruct self).
  repeat match goal with
         | |- context [match ?x with _ => _ end] => destruct x
         end;
    simpl;
    solve [ exists []; split; [exact Hsame|simpl; lia]
          | eexists; split; [reflexivity|simpl; lia] ].
Qed.

(** X8: [_processViewChangeDoneMessage] changes nothing of the selector but
    the vote ledger and the log: the replicas and their primaries, the view
    number, the previous master primary, the node (so [primary_found] is not
    called), the sent messages, f, the name and the ledger summaries are
    after the call what they were before.  The log gets at most one entry,
    and in the ledger no vote but the sender's for the message's instance is
    touched. *)
Theorem processViewChangeDoneMessage_touches_ledger_and_log msg sender self :
  let self' := fst (_processViewChangeDoneMessage msg sender self) in
  name self' = name self /\
  viewNo self' = viewNo self /\
  f self' = f self /\
  node self' = node self /\
  replicas self' = replicas self /\
  ledger_info self' = ledger_info self /\
  previous_master_primary self' = previous_master_primary self /\
  sent self' = sent self /\
  (exists entries,
     log self' = log self ++ entries /\ (List.length entries <= 1)%nat) /\
  (forall instance_id voter,
     (instance_id, voter)
     <> (ViewChangeDone.instId msg,
         generateName sender (ViewChangeDone.instId msg)) ->
     recorded_vote instance_id voter (_view_change_done self')
     = recorded_vote instance_id voter (_view_change_done self)).
Proof.
  cbv zeta. rewrite processViewChangeDoneMessage_run. cbv zeta.
  assert (Hone : forall entry : LogEntry,
            exists entries,
              log self ++ [entry] = log self ++ entries /\
              (List.length entries <= 1)%nat)
    by (intros entry; exists [entry]; split; [reflexivity|simpl; lia]).
  destruct (negb _); [simpl; repeat split; auto|].
  destruct (_ && _); [simpl; repeat split; auto|].
  destruct (recorded_vote _ _ _) eqn:Hnew; [simpl; repeat split; auto|].
  match goal with
  | |- context [decide_once_tracked msg ?tracked] =>
      destruct (decide_once_tracked_one_entry msg tracked)
        as (entries & -> & Hlen)
  end.
  simpl. repeat split.
  - exists entries. split; [reflexivity|exact Hlen].
  - intros i voter Hother. now apply recorded_vote_record_other.
Qed.

Lemma dict_set_nonempty {K V : Type} (eqb : K -> K -> bool) k v
    (d : dict K V) :
  dict_set eqb k v d <> [].
Proof.
  destruct d as [|[k' v'] d]; simpl; [discriminate|].
  destruct (eqb k k'); discriminate.
Qed.

Lemma decide_once_tracked_raised msg self self' e declarations :
  dict_get Z.eqb (ViewChangeDone.instId msg) (_view_change_done self)
  = Some declarations ->
  declarations <> [] ->
  decide_once_tracked msg self = (self', Raised e) ->
  self' = self /\
  ((e = IndexError /\
    list_getitem (replicas self) (ViewChangeDone.instId msg) = None) \/
   (e = ZeroDivisionError /\ totalNodes (node self) = 0)).
Proof.
  intros Hdecl Hnonempty.
  rewrite decide_once_tracked_run. unfold verdict_once_tracked.
  rewrite recorded_votes_values. unfold declarations_of. rewrite Hdecl.
  destruct (list_getitem _ _) as [replica|].
  2:{ intros [= <- <-]. split; [reflexivity|left; now split]. }
  destruct (hasPrimary replica); [discriminate|].
  destruct (negb _); [discriminate|].
  destruct (Z.eqb_spec (totalNodes (node self)) 0) as [Htotal|_].
  { intros [= <- <-]. split; [reflexivity|right; now split]. }
  destruct (negb _); [discriminate|].
  destruct declarations as [|[k v] declarations]; [congruence|].
  simpl. destruct (most_common_from _ _ _) as [p li].
  destruct (negb _); [discriminate|].
  destruct (String.eqb _ _); discriminate.
Qed.

(** X9: within [_processViewChangeDoneMessage] the subscript
    [self._view_change_done[instance_id]] of
    [has_sufficient_same_view_change_done_messages] never raises KeyError
    and [mostCommonElement] is never given an empty list, the vote having
    been tracked first.  Of the list index, the dictionary subscript, the
    modulo and the most common element, the only ones to fail are
    [self.replicas[instance_id]], with IndexError when the instance id does
    not index the node's replicas, and the modulo, with ZeroDivisionError
    when the node counts no nodes; the node's [get_name_by_rank] is taken to
    return a name.  When one of the two is raised the vote was of the
    current view and from a new voter, and it is in the ledger when the
    exception leaves the call. *)
Theorem processViewChangeDoneMessage_raises msg sender self self' e :
  let instance_id := ViewChangeDone.instId msg in
  let voter := generateName sender instance_id in
  _processViewChangeDoneMessage msg sender self = (self', Raised e) ->
  ((e = IndexError /\ list_getitem (replicas self) instance_id = None) \/
   (e = ZeroDivisionError /\ totalNodes (node self) = 0)) /\
  ViewChangeDone.viewNo msg = viewNo self /\
  recorded_vote instance_id voter (_view_change_done self) = None /\
  self'
  = with_view_change_done
      (record_vote instance_id voter
         (ViewChangeDone.name msg, ViewChangeDone.ledgerInfo msg)
         (_view_change_done self)) self.
Proof.
  cbv zeta. rewrite processViewChangeDoneMessage_run. cbv zeta.
  destruct (Z.eqb_spec (viewNo self) (ViewChangeDone.viewNo msg))
    as [Hview|_]; [|discriminate].
  simpl. destruct (_ && _); [discriminate|].
  destruct (recorded_vote _ _ _) eqn:Hnew; [discriminate|].
  intros Hrun.
  eapply decide_once_tracked_raised in Hrun as [-> Hwhy].
  - split; [exact Hwhy|]. split; [now symmetry|]. split; reflexivity.
  - simpl. unfold record_vote. apply (dict_get_set_same Z.eqb Z.eqb_eq).
  - apply dict_set_nonempty.
Qed.

Lemma processViewChangeDoneMessage_raises_witness :
  let msg := vote_for "Beta:7" 7 1 in
  let self' := fst (_processViewChangeDoneMessage msg "Beta"%string alpha) in
  list_getitem (replicas alpha) 7 = None /\
  recorded_vote 7 "Beta:7"%string (_view_change_done self')
  = Some ("Beta:7"%string, a_ledger_info).
Proof.
  cbv zeta.
  destruct (processViewChangeDoneMessage_raises
              (vote_for "Beta:7" 7 1) "Beta"%string alpha
              (fst (_processViewChangeDoneMessage (vote_for "Beta:7" 7 1)
                                                  "Beta"%string alpha))
              IndexError)
    as ([[_ Hindex]|[Hzero _]] & _ & _ & Hself').
  - vm_compute. reflexivity.
  - split; [exact Hindex|]. rewrite Hself'. vm_compute. reflexivity.
  - discriminate.
Defined.

(** X10: a vote of the current view that passes the anti-flap test, comes
    from a voter not yet recorded, and meets a replica without a primary and
    a node set that is not empty is answered with True as soon as, with the
    vote recorded, the voters reach the strong quorum, the expected primary
    is among them, and the most common pair is counted at least
    strong-quorum times and names the expected primary.  The call then
    leaves the old selector with just this vote added to the ledger. *)
Theorem decision_made_when_conditions_hold msg sender self replica :
  let instance_id := ViewChangeDone.instId msg in
  let voter := generateName sender instance_id in
  let tracked :=
    with_view_change_done
      (record_vote instance_id voter
         (ViewChangeDone.name msg, ViewChangeDone.ledgerInfo msg)
         (_view_change_done self)) self in
  ViewChangeDone.viewNo msg = viewNo self ->
  ~ proposes_previous_master_primary msg self ->
  recorded_vote instance_id voter (_view_change_done self) = None ->
  list_getitem (replicas self) instance_id = Some replica ->
  hasPrimary replica = false ->
  totalNodes (node self) <> 0 ->
  decision_conditions instance_id tracked ->
  _processViewChangeDoneMessage msg sender self = (tracked, Returned true).
Proof.
  intros instance_id voter tracked Hview Hflap Hnew Hreplica Hprimary Htotal
         (Hquorum & Hexpected & p & li & Hmost & _ & Hcount & Hp).
  rewrite fresh_vote_run by assumption. fold instance_id voter tracked.
  rewrite decide_once_tracked_run. unfold verdict_once_tracked.
  fold instance_id.
  change (replicas tracked) with (replicas self). rewrite Hreplica, Hprimary.
  destruct (Z.leb_spec (get_strong_quorum (f tracked))
              (Z.of_nat (List.length (voters instance_id tracked))))
    as [_|Hlt]; [|lia].
  simpl negb. cbv iota.
  change (totalNodes (node tracked)) with (totalNodes (node self)).
  destruct (Z.eqb_spec (totalNodes (node self)) 0); [contradiction|].
  apply (dict_mem_keys String.eqb String.eqb_eq) in Hexpected.
  rewrite Hexpected. simpl negb. cbv iota.
  assert (Hpresent : dict_get Z.eqb instance_id (_view_change_done tracked)
                     <> None).
  { unfold tracked, record_vote. simpl.
    rewrite (dict_get_set_same Z.eqb Z.eqb_eq). discriminate. }
  destruct (dict_get Z.eqb instance_id (_view_change_done tracked));
    [|congruence].
  rewrite Hmost.
  change (f tracked) with (f self) in Hcount.
  destruct (Z.geb_spec (count (recorded_votes instance_id tracked) (p, li))
                       (get_strong_quorum (f self))) as [_|Hlt]; [|lia].
  simpl negb. cbv iota. rewrite Hp, String.eqb_refl. reflexivity.
Qed.

Lemma decision_made_when_conditions_hold_witness :
  exists decided,
    _processViewChangeDoneMessage (vote_for "Beta:0" 0 1) "Delta"%string
                                  alpha_two_votes
    = (decided, Returned true).
Proof.
  eexists.
  apply (decision_made_when_conditions_hold
           (vote_for "Beta:0" 0 1) "Delta"%string alpha_two_votes
           (mkReplica None)).
  - reflexivity.
  - intros [_ H]. vm_compute in H. discriminate.
  - vm_compute. reflexivity.
  - reflexivity.
  - reflexivity.
  - vm_compute. discriminate.
  - split; [vm_compute; discriminate|].
    split; [vm_compute; auto|].
    exists "Beta:0"%string, a_ledger_info.
    split; [vm_compute; reflexivity|].
    split; [apply mostCommonElement_most_frequent; vm_compute; reflexivity|].
    split; [vm_compute; discriminate|vm_compute; reflexivity].
Defined.

(** ** The voters of an instance *)

Lemma voters_voters_in instance_id self :
  voters instance_id self = voters_in instance_id (_view_change_done self).
Proof. reflexivity. Qed.

Lemma voters_in_record i0 s data ledger i :
  recorded_vote i0 s ledger = None ->
  voters_in i (record_vote i0 s data ledger)
  = if i =? i0 then voters_in i ledger ++ [s] else voters_in i ledger.
Proof.
  intros Hnew. unfold voters_in, record_vote, recorded_vote in *.
  destruct (Z.eqb_spec i i0) as [->|Hne].
  - rewrite (dict_get_set_same Z.eqb Z.eqb_eq).
    destruct (dict_get Z.eqb i0 ledger) as [m|].
    + rewrite (dict_set_fresh String.eqb) by exact Hnew.
      unfold dict_keys. now rewrite map_app.
    + reflexivity.
  - now rewrite (dict_get_set_other Z.eqb Z.eqb_eq) by congruence.
Qed.

Lemma voters_in_recorded i s ledger :
  In s (voters_in i ledger) <-> recorded_vote i s ledger <> None.
Proof.
  unfold voters_in, recorded_vote.
  destruct (dict_get Z.eqb i ledger) as [m|]; simpl.
  - rewrite <- (dict_mem_keys String.eqb String.eqb_eq). unfold dict_mem.
    destruct (dict_get String.eqb s m); split; congruence.
  - split; [intros []|congruence].
Qed.

Lemma ledger_extends_voters l1 l2 i :
  ledger_extends l1 l2 ->
  exists more, voters_in i l2 = voters_in i l1 ++ more.
Proof.
  intros H. induction H as [|l1 l2 i0 s d _ [more IH] Hnew].
  - exists []. now rewrite app_nil_r.
  - rewrite voters_in_record by exact Hnew. rewrite IH.
    destruct (i =? i0); [|now exists more].
    exists (more ++ [s]). now rewrite app_assoc.
Qed.

(** ** Calls within a view *)

Lemma processViewChangeDoneMessage_same_view msg sender self :
  same_view self (fst (_processViewChangeDoneMessage msg sender self)).
Proof.
  pose proof (processViewChangeDoneMessage_extends msg sender self) as Hext.
  revert Hext. rewrite processViewChangeDoneMessage_run. cbv zeta.
  unfold same_view.
  destruct (negb _); [simpl; intros; repeat split; assumption|].
  destruct (_ && _); [simpl; intros; repeat split; assumption|].
  destruct (recorded_vote _ _ _); [simpl; intros; repeat split; assumption|].
  match goal with
  | |- context [decide_once_tracked msg ?tracked] =>
      destruct (decide_once_tracked_frame msg tracked) as [entries ->]
  end.
  simpl. intros. repeat split; assumption.
Qed.

Lemma select_primary_of_same_view instance_id replica self :
  same_view self (fst (select_primary_of instance_id replica self)).
Proof.
  destruct (Z.eq_dec (totalNodes (node self)) 0) as [Hzero|Htotal].
  - destruct (hasPrimary replica) eqn:Hr.
    + rewrite select_primary_of_decided by exact Hr. apply same_view_refl.
    + unfold select_primary_of, hasPrimary in *.
      destruct (primaryName replica); [discriminate|].
      unfold bind, get. rewrite who_is_the_next_primary_run, Hzero.
      apply same_view_refl.
  - rewrite select_primary_of_run by exact Htotal. simpl.
    destruct (hasPrimary replica);
      [apply same_view_refl|apply selected_same_view].
Qed.

Lemma for_each_same_view {A : Type} (body : A -> M unit) :
  (forall x self, same_view self (fst (body x self))) ->
  forall l self, same_view self (fst (for_each body l self)).
Proof.
  intros Hbody l. induction l as [|x l IH]; intros self; simpl.
  - apply same_view_refl.
  - unfold bind. pose proof (Hbody x self) as Hx.
    destruct (body x self) as [self1 [[]|e]]; simpl in *; [|exact Hx].
    eapply same_view_trans; [exact Hx|apply IH].
Qed.

Lemma startSelection_same_view self :
  same_view self (fst (_startSelection self)).
Proof.
  unfold _startSelection, bind, get.
  apply for_each_same_view. intros [i r] st.
  apply select_primary_of_same_view.
Qed.

Lemma run_calls_same_view calls : forall self,
  same_view self (run_calls calls self).
Proof.
  unfold run_calls.
  induction calls as [|c calls IH]; intros self; simpl;
    [apply same_view_refl|].
  eapply same_view_trans; [|apply IH].
  destruct c; simpl.
  - apply processViewChangeDoneMessage_same_view.
  - apply startSelection_same_view.
Qed.

(** X11: a view change quorum is not lost within a view: once
    [_hasViewChangeQuorum] answers True for an instance, it answers True
    after any further votes and selections of that view. *)
Theorem view_change_quorum_is_kept calls instance_id self :
  _hasViewChangeQuorum instance_id self = (self, Returned true) ->
  _hasViewChangeQuorum instance_id (run_calls calls self)
  = (run_calls calls self, Returned true).
Proof.
  rewrite !hasViewChangeQuorum_run. intros [= Hquorum].
  destruct (run_calls_same_view calls self)
    as (_ & _ & Hf & _ & _ & _ & Hext).
  destruct (ledger_extends_voters _ _ instance_id Hext) as [more Hmore].
  rewrite !voters_voters_in, Hmore, Hf, length_app.
  rewrite voters_voters_in in Hquorum. apply Z.leb_le in Hquorum.
  f_equal. f_equal. apply Z.leb_le. lia.
Qed.

Lemma view_change_quorum_is_kept_witness :
  let decided :=
    fst (_processViewChangeDoneMessage (vote_for "Beta:0" 0 1) "Delta"%string
                                       alpha_two_votes) in
  let later :=
    run_calls [StartSelection;
               ProcessVote (vote_for "Gamma:0" 0 1) "Alpha"%string] decided in
  _hasViewChangeQuorum 0 later = (later, Returned true).
Proof.
  cbv zeta.
  apply (view_change_quorum_is_kept
           [StartSelection; ProcessVote (vote_for "Gamma:0" 0 1) "Alpha"%string]
           0
           (fst (_processViewChangeDoneMessage (vote_for "Beta:0" 0 1)
                                               "Delta"%string
                                               alpha_two_votes))).
  vm_compute. reflexivity.
Defined.

(** X12: the vote of the expected primary is not lost within a view: once
    [has_view_change_from_primary] answers True for an instance, it answers
    True after any further votes and selections of that view. *)
Theorem view_change_from_primary_is_kept calls instance_id self :
  has_view_change_from_primary instance_id self = (self, Returned true) ->
  has_view_change_from_primary instance_id (run_calls calls self)
  = (run_calls calls self, Returned true).
Proof.
  rewrite !has_view_change_from_primary_run.
  pose proof (run_calls_same_view calls self) as Hsame.
  rewrite (same_view_expected instance_id _ _ Hsame).
  destruct Hsame as (_ & _ & _ & _ & Htotal & _ & Hext).
  rewrite Htotal.
  destruct (totalNodes (node self) =? 0); [discriminate|].
  intros [= Hvoted]. f_equal. f_equal.
  apply (dict_mem_keys String.eqb String.eqb_eq) in Hvoted.
  apply (dict_mem_keys String.eqb String.eqb_eq).
  change (In (expected_primary_of instance_id self)
             (voters instance_id (run_calls calls self))).
  change (In (expected_primary_of instance_id self)
             (voters instance_id self)) in Hvoted.
  rewrite voters_voters_in in *.
  destruct (ledger_extends_voters _ _ instance_id Hext) as [more ->].
  apply in_or_app. now left.
Qed.

Lemma view_change_from_primary_is_kept_witness :
  let later :=
    run_calls [StartSelection;
               ProcessVote (vote_for "Gamma:0" 0 1) "Delta"%string]
              alpha_two_votes in
  has_view_change_from_primary 0 later = (later, Returned true).
Proof.
  cbv zeta.
  apply (view_change_from_primary_is_kept
           [StartSelection; ProcessVote (vote_for "Gamma:0" 0 1) "Delta"%string]
           0 alpha_two_votes).
  vm_compute. reflexivity.
Defined.

(** X13: [_track_view_change_done] always returns.  When it returns True the
    voter is new for the instance: it is added as the last voter of that
    instance with the vote given, and the voters of every other instance are
    what they were.  When it returns False the voter was already there and
    the selector is left as it was. *)
Theorem track_view_change_done_adds_one_voter
    instance_id voter new_primary ledger_info self :
  exists self' accepted,
    _track_view_change_done instance_id voter new_primary ledger_info self
    = (self', Returned accepted) /\
    (accepted = true ->
     ~ In voter (voters instance_id self) /\
     voters instance_id self' = voters instance_id self ++ [voter] /\
     recorded_vote instance_id voter (_view_change_done self')
     = Some (new_primary, ledger_info) /\
     forall other,
       other <> instance_id -> voters other self' = voters other self) /\
    (accepted = false ->
     In voter (voters instance_id self) /\ self' = self).
Proof.
  rewrite track_view_change_done_run.
  destruct (recorded_vote instance_id voter (_view_change_done self)) eqn:E.
  - exists self, false. split; [reflexivity|]. split; [discriminate|].
    intros _. split; [|reflexivity].
    rewrite voters_voters_in. apply voters_in_recorded. congruence.
  - eexists. exists true. split; [reflexivity|]. split; [|discriminate].
    intros _. rewrite !voters_voters_in. simpl.
    split; [rewrite voters_in_recorded; congruence|].
    split; [rewrite voters_in_record by exact E; now rewrite Z.eqb_refl|].
    split; [apply recorded_vote_record_same|].
    intros other Hother. rewrite !voters_voters_in. simpl.
    rewrite voters_in_record by exact E.
    destruct (Z.eqb_spec other instance_id); [contradiction|reflexivity].
Qed.

(** ** Round robin *)

(** X14: with a positive node count the primary moves round robin: the
    expected primary of an instance sits at a rank between 0 and
    totalNodes - 1; the next instance, and the same instance in the next
    view, get the node at the next rank, wrapping to rank 0 after the last;
    and totalNodes instances further the same node is chosen again. *)
Theorem next_primary_rotates instance_id self :
  0 < totalNodes (node self) ->
  let total := totalNodes (node self) in
  let node_at := get_name_by_rank (node self) in
  exists rank,
    0 <= rank < total /\
    _who_is_the_next_primary instance_id self
    = (self, Returned (generateName (node_at rank) instance_id)) /\
    _who_is_the_next_primary (instance_id + 1) self
    = (self,
       Returned (generateName (node_at ((rank + 1) mod total))
                              (instance_id + 1))) /\
    _who_is_the_next_primary (instance_id + total) self
    = (self, Returned (generateName (node_at rank) (instance_id + total))) /\
    forall next,
      viewNo next = viewNo self + 1 -> node next = node self ->
      _who_is_the_next_primary instance_id next
      = (next,
         Returned (generateName (node_at ((rank + 1) mod total)) instance_id)).
Proof.
  intros Htotal. cbv zeta.
  exists ((viewNo self + instance_id) mod totalNodes (node self)).
  split; [apply Z.mod_pos_bound; exact Htotal|].
  assert (Hrun : forall i st,
            totalNodes (node st) = totalNodes (node self) ->
            _who_is_the_next_primary i st
            = (st, Returned (expected_primary_of i st))).
  { intros i st Hst. rewrite who_is_the_next_primary_run, Hst.
    destruct (Z.eqb_spec (totalNodes (node self)) 0); [lia|reflexivity]. }
  rewrite !Hrun by reflexivity.
  unfold expected_primary_of, expected_primary.
  split; [reflexivity|]. split; [|split].
  - rewrite Z.add_mod_idemp_l by lia.
    now rewrite Z.add_assoc.
  - replace (viewNo self + (instance_id + totalNodes (node self)))
      with (viewNo self + instance_id + 1 * totalNodes (node self)) by lia.
    now rewrite Z.mod_add by lia.
  - intros next Hview Hnode. rewrite Hrun by now rewrite Hnode.
    unfold expected_primary_of, expected_primary. rewrite Hview, Hnode.
    rewrite Z.add_mod_idemp_l by lia.
    now replace (viewNo self + 1 + instance_id)
      with (viewNo self + instance_id + 1) by lia.
Qed.

Lemma next_primary_rotates_witness :
  exists rank,
    0 <= rank < 4 /\
    _who_is_the_next_primary 2 alpha
    = (alpha, Returned (generateName (ranks rank) 2)) /\
    _who_is_the_next_primary 3 alpha
    = (alpha, Returned (generateName (ranks ((rank + 1) mod 4)) 3)).
Proof.
  destruct (next_primary_rotates 2 alpha) as (rank & Hrank & H2 & H3 & _).
  - vm_compute. reflexivity.
  - exists rank. split; [exact Hrank|]. split; [exact H2|exact H3].
Defined.

(** ** A view change, seen from the ledger *)

Lemma cleared_keys (ledger : VoteLedger) :
  dict_keys (map (fun '(i, _) => (i, @nil (ReplicaName * VoteData))) ledger)
  = dict_keys ledger.
Proof.
  unfold dict_keys. rewrite map_map. apply map_ext. now intros [i m].
Qed.

Lemma cleared_get (ledger : VoteLedger) i :
  dict_get Z.eqb i
    (map (fun '(i, _) => (i, @nil (ReplicaName * VoteData))) ledger)
  = match dict_get Z.eqb i ledger with
    | Some _ => Some []
    | None => None
    end.
Proof.
  induction ledger as [|[i0 m] ledger IH]; simpl; [reflexivity|].
  destruct (Z.eqb i i0); [reflexivity|exact IH].
Qed.

Lemma cleared_lagged_msgs own view (ledger : VoteLedger) :
  flat_map
    (fun '(instance_id, replica_messages) =>
       match dict_get String.eqb (generateName own instance_id)
                      replica_messages with
       | Some (new_primary_replica_name, ledger_info) =>
           [ViewChangeDone.make new_primary_replica_name instance_id view
                                ledger_info]
       | None => []
       end)
    (map (fun '(i, _) => (i, @nil (ReplicaName * VoteData))) ledger)
  = [].
Proof.
  induction ledger as [|[i0 m] ledger IH]; simpl; [reflexivity|exact IH].
Qed.

(** X15: [view_change_started] returns once the base class's method has
    returned.  When that said False it leaves the selector as the base class
    left it.  When it said True the ledger keeps its instance ids in their
    order, every instance has no voter, [get_msgs_for_lagged_nodes] has
    nothing to replay, and for f >= 0 no instance has a view change quorum
    any more; nothing else of the selector is changed. *)
Theorem view_change_started_clears_the_ledger
    (PrimaryDecider_view_change_started : Z -> M bool)
    new_view self started accepted :
  PrimaryDecider_view_change_started new_view self
  = (started, Returned accepted) ->
  exists reset,
    view_change_started PrimaryDecider_view_change_started new_view self
    = (reset, Returned tt) /\
    (accepted = false -> reset = started) /\
    (accepted = true ->
     reset = with_view_change_done (_view_change_done reset) started /\
     dict_keys (_view_change_done reset)
     = dict_keys (_view_change_done started) /\
     (forall instance_id, voters instance_id reset = []) /\
     get_msgs_for_lagged_nodes reset = [] /\
     (0 <= f reset ->
      forall instance_id,
        _hasViewChangeQuorum instance_id reset = (reset, Returned false))).
Proof.
  intros Hbase. unfold view_change_started, bind. rewrite Hbase.
  destruct accepted.
  - run_py. eexists. split; [reflexivity|]. split; [discriminate|].
    intros _.
    assert (Hvoters : forall instance_id,
              voters instance_id
                (with_view_change_done
                   (map (fun '(i, _) => (i, @nil (ReplicaName * VoteData)))
                        (_view_change_done started)) started) = []).
    { intros i. unfold voters, declarations_of. simpl.
      rewrite cleared_get.
      now destruct (dict_get Z.eqb i (_view_change_done started)). }
    split; [reflexivity|]. split; [apply cleared_keys|].
    split; [exact Hvoters|]. split; [apply cleared_lagged_msgs|].
    intros Hf i. rewrite hasViewChangeQuorum_run, Hvoters. simpl.
    f_equal. f_equal. apply Z.leb_gt. unfold get_strong_quorum.
    simpl in Hf. lia.
  - exists started. split; [reflexivity|]. split; [reflexivity|discriminate].
Qed.

Lemma view_change_started_clears_the_ledger_witness :
  let reset :=
    fst (view_change_started decider_view_change_started 2 alpha_two_votes) in
  voters 0 alpha_two_votes = ["Beta:0"%string; "Gamma:0"%string] /\
  voters 0 reset = [] /\
  dict_keys (_view_change_done reset) = [0].
Proof.
  cbv zeta.
  destruct (view_change_started_clears_the_ledger
              decider_view_change_started 2 alpha_two_votes
              (fst (decider_view_change_started 2 alpha_two_votes)) true)
    as (reset & Hrun & _ & Hcleared).
  - vm_compute. reflexivity.
  - destruct (Hcleared eq_refl) as (_ & _ & Hvoters & _).
    rewrite Hrun. simpl fst.
    split; [vm_compute; reflexivity|]. split; [apply Hvoters|].
    assert (Hreset : reset
                     = fst (view_change_started decider_view_change_started 2
                                                alpha_two_votes))
      by (rewrite Hrun; reflexivity).
    rewrite Hreset. vm_compute. reflexivity.
Defined.

(** ** Counting the votes of an instance *)

Lemma recorded_votes_length instance_id self :
  List.length (recorded_votes instance_id self)
  = List.length (voters instance_id self).
Proof.
  rewrite recorded_votes_values. unfold voters, dict_values, dict_keys.
  now rewrite !length_map.
Qed.

Lemma count_two votes x y :
  x <> y -> count votes x + count votes y <= Z.of_nat (List.length votes).
Proof.
  intros Hne. unfold count.
  induction votes as [|v votes IH]; simpl; [lia|].
  destruct (VoteData_eq_dec v x) as [Ex|Hx];
    destruct (VoteData_eq_dec v y) as [Ey|Hy]; [congruence|lia|lia|lia].
Qed.

(** X16: for an instance with at least one voter,
    [has_sufficient_same_view_change_done_messages] returns.  When it
    returns a pair, that pair is among the recorded votes, is counted at
    least strong-quorum times, and no pair is counted more often; when it
    returns None, no pair at all is counted strong-quorum times.  The
    selector is left as it was. *)
Theorem sufficient_same_messages_found instance_id self :
  voters instance_id self <> [] ->
  let votes := recorded_votes instance_id self in
  let quorum := get_strong_quorum (f self) in
  exists rv,
    has_sufficient_same_view_change_done_messages instance_id self
    = (self, Returned rv) /\
    match rv with
    | Some found =>
        In found votes /\ quorum <= count votes found /\
        forall other, count votes other <= count votes found
    | None => forall other, count votes other < quorum
    end.
Proof.
  intros Hvoters. cbv zeta. rewrite has_sufficient_run.
  assert (Hpresent : dict_get Z.eqb instance_id (_view_change_done self)
                     <> None).
  { intros Hnone. apply Hvoters. unfold voters, declarations_of.
    now rewrite Hnone. }
  destruct (dict_get Z.eqb instance_id (_view_change_done self));
    [|congruence].
  cbv zeta.
  destruct (mostCommonElement (recorded_votes instance_id self))
    as [found|] eqn:Hmost.
  - apply mostCommonElement_most_frequent in Hmost as [Hin Hmax].
    destruct (Z.geb_spec (count (recorded_votes instance_id self) found)
                         (get_strong_quorum (f self))) as [Hge|Hlt].
    + eexists. split; [reflexivity|]. split; [exact Hin|].
      split; [lia|exact Hmax].
    + eexists. split; [reflexivity|]. intros other.
      specialize (Hmax other). lia.
  - exfalso. apply Hvoters.
    pose proof (recorded_votes_length instance_id self) as Hlen.
    destruct (recorded_votes instance_id self); [|discriminate].
    now apply length_zero_iff_nil.
Qed.

Lemma sufficient_same_messages_found_witness :
  exists rv,
    has_sufficient_same_view_change_done_messages 0 alpha_two_votes
    = (alpha_two_votes, Returned rv) /\
    match rv with
    | Some found => False
    | None =>
        forall other, count (recorded_votes 0 alpha_two_votes) other < 3
    end.
Proof.
  destruct (sufficient_same_messages_found 0 alpha_two_votes)
    as (rv & Hrun & Hrv).
  - vm_compute. discriminate.
  - exists rv. split; [exact Hrun|].
    assert (Hnone : rv = None).
    { assert (H : snd (has_sufficient_same_view_change_done_messages
                         0 alpha_two_votes) = Returned None)
        by (vm_compute; reflexivity).
      rewrite Hrun in H. simpl in H. congruence. }
    subst rv. exact Hrv.
Defined.

(** X17: for an instance the ledger does not know (no vote was ever tracked
    for it), [has_sufficient_same_view_change_done_messages] raises KeyError,
    while [_hasViewChangeQuorum] and [has_view_change_from_primary] take the
    instance to have no voters: for f >= 0 and a node set that is not empty
    both return False.  None of the three changes the selector. *)
Theorem unknown_instance_has_no_votes instance_id self :
  dict_get Z.eqb instance_id (_view_change_done self) = None ->
  0 <= f self ->
  totalNodes (node self) <> 0 ->
  has_sufficient_same_view_change_done_messages instance_id self
  = (self, Raised KeyError) /\
  _hasViewChangeQuorum instance_id self = (self, Returned false) /\
  has_view_change_from_primary instance_id self = (self, Returned false).
Proof.
  intros Hnone Hf Htotal.
  rewrite has_sufficient_run, hasViewChangeQuorum_run,
    has_view_change_from_primary_run.
  unfold voters, declarations_of. rewrite Hnone. simpl.
  destruct (Z.eqb_spec (totalNodes (node self)) 0); [contradiction|].
  repeat split. f_equal. f_equal. apply Z.leb_gt.
  unfold get_strong_quorum. lia.
Qed.

Lemma unknown_instance_has_no_votes_witness :
  has_sufficient_same_view_change_done_messages 1 alpha_two_votes
  = (alpha_two_votes, Raised KeyError) /\
  _hasViewChangeQuorum 1 alpha_two_votes = (alpha_two_votes, Returned false) /\
  has_view_change_from_primary 1 alpha_two_votes
  = (alpha_two_votes, Returned false).
Proof.
  apply (unknown_instance_has_no_votes 1 alpha_two_votes).
  - vm_compute. reflexivity.
  - vm_compute. discriminate.
  - vm_compute. discriminate.
Defined.

(** X18: when fewer than twice the strong quorum of voters are recorded for
    an instance, the pair [has_sufficient_same_view_change_done_messages]
    returns is the only pair counted strong-quorum times, so the answer does
    not hang on how [mostCommonElement] chooses among equally frequent
    pairs. *)
Theorem sufficient_pair_is_the_only_one instance_id self found other :
  has_sufficient_same_view_change_done_messages instance_id self
  = (self, Returned (Some found)) ->
  Z.of_nat (List.length (voters instance_id self))
  < 2 * get_strong_quorum (f self) ->
  get_strong_quorum (f self) <= count (recorded_votes instance_id self) other ->
  other = found.
Proof.
  rewrite has_sufficient_run.
  destruct (dict_get Z.eqb instance_id (_view_change_done self));
    [|discriminate].
  cbv zeta.
  destruct (mostCommonElement (recorded_votes instance_id self))
    as [most|]; [|discriminate].
  destruct (Z.geb_spec (count (recorded_votes instance_id self) most)
                       (get_strong_quorum (f self))) as [Hge|_];
    [|discriminate].
  intros [= ->] Hfew Hother.
  destruct (VoteData_eq_dec other found) as [Heq|Hne]; [exact Heq|].
  pose proof (count_two (recorded_votes instance_id self) other found Hne).
  rewrite recorded_votes_length in *. lia.
Qed.

Lemma sufficient_pair_is_the_only_one_witness :
  let decided :=
    fst (_processViewChangeDoneMessage (vote_for "Beta:0" 0 1) "Delta"%string
                                       alpha_two_votes) in
  exists found,
    has_sufficient_same_view_change_done_messages 0 decided
    = (decided, Returned (Some found)) /\
    3 <= count (recorded_votes 0 decided) ("Beta:0"%string, a_ledger_info) /\
    ("Beta:0"%string, a_ledger_info) = found.
Proof.
  cbv zeta. exists ("Beta:0"%string, a_ledger_info).
  split; [vm_compute; reflexivity|].
  split; [vm_compute; discriminate|].
  apply (sufficient_pair_is_the_only_one 0
           (fst (_processViewChangeDoneMessage (vote_for "Beta:0" 0 1)
                                               "Delta"%string alpha_two_votes))).
  - vm_compute. reflexivity.
  - vm_compute. reflexivity.
  - vm_compute. discriminate.
Defined.

(** ** What votes of peers cannot do *)

Lemma lagged_msgs_record_other own view i s data (ledger : VoteLedger) :
  s <> generateName own i ->
  flat_map
    (fun '(instance_id, replica_messages) =>
       match dict_get String.eqb (generateName own instance_id)
                      replica_messages with
       | Some (new_primary_replica_name, ledger_info) =>
           [ViewChangeDone.make new_primary_replica_name instance_id view
                                ledger_info]
       | None => []
       end)
    (record_vote i s data ledger)
  = flat_map
      (fun '(instance_id, replica_messages) =>
         match dict_get String.eqb (generateName own instance_id)
                        replica_messages with
         | Some (new_primary_replica_name, ledger_info) =>
             [ViewChangeDone.make new_primary_replica_name instance_id view
                                  ledger_info]
         | None => []
         end)
      ledger.
Proof.
  intros Hother. unfold record_vote.
  induction ledger as [|[i0 m] ledger IH]; simpl.
  - rewrite (eqb_neq_false String.eqb String.eqb_eq); [reflexivity|].
    congruence.
  - destruct (Z.eqb_spec i i0) as [<-|Hne]; simpl.
    + now rewrite (dict_get_set_other String.eqb String.eqb_eq) by exact Hother.
    + now rewrite IH.
Qed.

(** X19: a vote that is not recorded under the node's own replica name does
    not change what [get_msgs_for_lagged_nodes] returns: whatever peers
    send, the messages replayed to lagged nodes stay the node's own. *)
Theorem peer_votes_do_not_change_replay msg sender self :
  generateName sender (ViewChangeDone.instId msg)
  <> generateName (name self) (ViewChangeDone.instId msg) ->
  get_msgs_for_lagged_nodes
    (fst (_processViewChangeDoneMessage msg sender self))
  = get_msgs_for_lagged_nodes self.
Proof.
  intros Hpeer. rewrite processViewChangeDoneMessage_run. cbv zeta.
  destruct (negb _); [reflexivity|].
  destruct (_ && _); [reflexivity|].
  destruct (recorded_vote _ _ _); [reflexivity|].
  match goal with
  | |- context [decide_once_tracked msg ?tracked] =>
      destruct (decide_once_tracked_frame msg tracked) as [entries ->]
  end.
  unfold get_msgs_for_lagged_nodes. simpl.
  now apply lagged_msgs_record_other.
Qed.

Lemma peer_votes_do_not_change_replay_witness :
  let selected_self := fst (_startSelection alpha) in
  get_msgs_for_lagged_nodes
    (fst (_processViewChangeDoneMessage (vote_for "Gamma:0" 0 1)
                                        "Delta"%string selected_self))
  = get_msgs_for_lagged_nodes selected_self.
Proof.
  cbv zeta.
  apply (peer_votes_do_not_change_replay (vote_for "Gamma:0" 0 1)
           "Delta"%string (fst (_startSelection alpha))).
  vm_compute. discriminate.
Defined.

Lemma list_getitem_In {A : Type} (l : list A) i x :
  list_getitem l i = Some x -> In x l.
Proof.
  unfold list_getitem.
  destruct (_ && _); [apply nth_error_In|].
  destruct (_ && _); [apply nth_error_In|discriminate].
Qed.

Lemma startSelection_decided self :
  forallb hasPrimary (replicas self) = true ->
  _startSelection self = (self, Returned tt).
Proof.
  intros Hdecided.
  destruct (Z.eq_dec (totalNodes (node self)) 0) as [Hzero|Htotal].
  - unfold _startSelection, bind, get, enumerate.
    rewrite for_each_replica_no_nodes;
      [now rewrite Hdecided|exact Hzero|now rewrite length_map, length_seq].
  - rewrite startSelection_run by exact Htotal.
    now rewrite selection_from_decided.
Qed.

Lemma processViewChangeDoneMessage_replicas msg sender self :
  replicas (fst (_processViewChangeDoneMessage msg sender self))
  = replicas self.
Proof.
  rewrite processViewChangeDoneMessage_run. cbv zeta.
  destruct (negb _); [reflexivity|].
  destruct (_ && _); [reflexivity|].
  destruct (recorded_vote _ _ _); [reflexivity|].
  match goal with
  | |- context [decide_once_tracked msg ?tracked] =>
      destruct (decide_once_tracked_frame msg tracked) as [entries ->]
  end.
  reflexivity.
Qed.

Lemma run_calls_decided calls : forall self,
  forallb hasPrimary (replicas self) = true ->
  forallb hasPrimary (replicas (run_calls calls self)) = true.
Proof.
  unfold run_calls.
  induction calls as [|c calls IH]; intros self Hdecided; simpl;
    [exact Hdecided|].
  apply IH. destruct c; simpl.
  - now rewrite processViewChangeDoneMessage_replicas.
  - now rewrite startSelection_decided.
Qed.

(** X20: once every replica has a primary (as [_startSelection] leaves
    them), no vote is answered with True any more: whatever votes and
    selections follow within the view, [_processViewChangeDoneMessage]
    returns False or raises, for every message and sender. *)
Theorem no_decision_once_replicas_have_primaries calls msg sender self :
  forallb hasPrimary (replicas self) = true ->
  snd (_processViewChangeDoneMessage msg sender (run_calls calls self))
  <> Returned true.
Proof.
  intros Hdecided.
  apply (run_calls_decided calls) in Hdecided.
  rewrite processViewChangeDoneMessage_run. cbv zeta.
  destruct (negb _); [discriminate|].
  destruct (_ && _); [discriminate|].
  destruct (recorded_vote _ _ _); [discriminate|].
  rewrite decide_once_tracked_run. unfold verdict_once_tracked.
  simpl (replicas _).
  destruct (list_getitem _ _) as [replica|] eqn:Hreplica; [|discriminate].
  apply list_getitem_In in Hreplica.
  rewrite forallb_forall in Hdecided. rewrite (Hdecided _ Hreplica).
  discriminate.
Qed.

Lemma no_decision_once_replicas_have_primaries_witness :
  snd (_processViewChangeDoneMessage (vote_for "Beta:0" 0 1) "Delta"%string
         (run_calls [ProcessVote (vote_for "Gamma:1" 1 1) "Beta"%string]
                    (fst (_startSelection alpha_two_votes))))
  <> Returned true.
Proof.
  apply (no_decision_once_replicas_have_primaries
           [ProcessVote (vote_for "Gamma:1" 1 1) "Beta"%string]
           (vote_for "Beta:0" 0 1) "Delta"%string
           (fst (_startSelection alpha_two_votes))).
  vm_compute. reflexivity.
Defined.
